(** * snorkel.preprocess.core: memoizing preprocessors

    A shallow embedding of [src/snorkel/preprocess/core.py]: the
    [preprocessor] decorator class with its [__call__] and [__repr__]
    methods, and the two marker classes [Preprocessor] and
    [LambdaPreprocessor].

    Python objects live in a heap of attribute dictionaries, values are
    atoms or references into that heap, calls either return a value or
    raise, and the instance's [_cache] dict is a finite map. *)

From Stdlib Require Import ZArith String List.
From stdpp Require Import base option gmap strings list.

Local Open Scope string_scope.

(** ** Python values, objects and the heap *)

Definition loc := positive.

(** A value is an atom ([None], an int, a str) or a reference to an
    object; two references are the same object iff their locations are
    equal (Python's [is]). *)
Inductive val : Type :=
  | VNone
  | VInt (n : Z)
  | VStr (s : string)
  | VRef (l : loc).

#[global] Instance val_eq_dec : EqDecision val.
Proof. solve_decision. Defined.

(** An object: the name of its class and its [__dict__]. *)
Record obj : Type := Obj {
  o_class : string;
  o_attrs : gmap string val
}.

Abbreviation heap := (gmap loc obj).

(** [getattr(x, a)], when [x] is an object that has the attribute. *)
Definition getattr (h : heap) (x : val) (a : string) : option val :=
  match x with
  | VRef l => o ← h !! l; o_attrs o !! a
  | _ => None
  end.

(** [x.a = v] on an existing object. *)
Definition setattr (h : heap) (l : loc) (a : string) (v : val) : heap :=
  match h !! l with
  | Some o => <[l := Obj (o_class o) (<[a := v]> (o_attrs o))]> h
  | None => h
  end.


(** ** Exceptions and outcomes *)

Inductive exn : Type := Exn (ty : string) (msg : string).

Inductive outcome (A : Type) : Type :=
  | Return (a : A)
  | Raise (e : exn).
Arguments Return {A} a.
Arguments Raise {A} e.

(** A Python callable of one argument: it reads and writes the heap and
    returns or raises.  The heap it leaves behind is kept in both cases. *)
Definition callable (A : Type) : Type := val → heap → outcome A * heap.

(** A function without effects, as a callable. *)
Definition pure_callable {A} (f : val → A) : callable A :=
  fun x h => (Return (f x), h).

(** A callable that changes no object that exists when it is called
    (it may create new ones). *)
Definition preserving {A} (f : callable A) : Prop :=
  ∀ v h r h', f v h = (r, h') → h ⊆ h'.

(** A mapper object as [__call__] and [__repr__] use it: calling it and
    printing it.  The elements of [self._pre] are such objects. *)
Record mapper : Type := Mapper_obj {
  m_call : callable val;
  m_repr : string
}.

(** ** The preprocessor instance *)

(** External calls a [__call__] makes, in the order it makes them. *)
Inductive event : Type :=
  | CallKey (x : val)          (* self._memoize_key(x) *)
  | CallDeepcopy (x : val)     (* copy.deepcopy(x) *)
  | CallPre (i : nat) (x : val)(* self._pre[i](x_mapped) *)
  | CallGen (x : val).         (* self._generate_mapped_data_point(x_mapped) *)

#[global] Instance event_eq_dec : EqDecision event.
Proof. solve_decision. Defined.

Definition is_key_event (ev : event) : bool :=
  match ev with CallKey _ => true | _ => false end.

Section Preprocessor.

(** Memoization keys: any hashable Python value. *)
Context {K : Type} `{Countable K}.

(** [copy.deepcopy], from the Python standard library. *)
Variable deepcopy : callable val.

(** The attributes of [self] that the base class [lambda_mapper] sets
    at construction and that [__call__] and [__repr__] read.  The
    mutable [_cache] dict is in the [state] below. *)
Record preprocessor : Type := {
  type_name : string;                              (* type(self).__name__ *)
  name : string;
  memoize : bool;
  _memoize_key : callable K;
  _pre : list mapper;
  _generate_mapped_data_point : callable val
}.

(** What a call can change: the heap of objects, the instance's
    [_cache], and the log of the external calls made so far.  The cache
    is the instance's own: the callables a call runs are given the heap,
    not the cache. *)
Record state : Type := State {
  st_heap : heap;
  _cache : gmap K val;
  st_log : list event
}.

(** *** State and exception monad *)

Definition M (A : Type) : Type := state → outcome A * state.

Definition ret {A} (a : A) : M A := fun st => (Return a, st).

Definition raise {A} (e : exn) : M A := fun st => (Raise e, st).

Definition bind {A B} (m : M A) (k : A → M B) : M B :=
  fun st =>
    match m st with
    | (Return a, st') => k a st'
    | (Raise e, st') => (Raise e, st')
    end.

Notation "x <- m ;; k" := (bind m (fun x => k))
  (at level 100, m at next level, right associativity).

(** Call [f] on the current heap and record the call. *)
Definition invoke {A} (ev : event) (f : heap → outcome A * heap) : M A :=
  fun st =>
    let '(r, h') := f (st_heap st) in
    (r, State h' (_cache st) (st_log st ++ [ev])).

(** [k in self._cache] *)
Definition cache_contains (k : K) : M bool :=
  fun st => (Return (bool_decide (is_Some (_cache st !! k))), st).

(** [self._cache[k]] *)
Definition cache_getitem (k : K) : M val :=
  fun st =>
    match _cache st !! k with
    | Some v => (Return v, st)
    | None => (Raise (Exn "KeyError" ""), st)
    end.

(** [self._cache[k] = v] *)
Definition cache_setitem (k : K) (v : val) : M unit :=
  fun st => (Return tt, State (st_heap st) (<[k := v]> (_cache st)) (st_log st)).

(** [for mapper in self._pre: x_mapped = mapper(x_mapped)] *)
Fixpoint run_pre (pre : list mapper) (i : nat) (x_mapped : val) : M val :=
  match pre with
  | [] => ret x_mapped
  | mapper :: rest =>
      x_mapped <- invoke (CallPre i x_mapped) (m_call mapper x_mapped) ;;
      run_pre rest (S i) x_mapped
  end.

(** Lines 92-99 of [__call__]: everything after the cache lookup.
    [x_hashable] is the local variable of that name, bound only when
    the first [if self.memoize] branch ran. *)
Definition call_miss (self : preprocessor) (x : val) (x_hashable : option K) : M val :=
  x_mapped <- invoke (CallDeepcopy x) (deepcopy x) ;;
  x_mapped <- run_pre (_pre self) 0 x_mapped ;;
  x_mapped <- invoke (CallGen x_mapped) (_generate_mapped_data_point self x_mapped) ;;
  _ <- (if memoize self then
          match x_hashable with
          | Some k => cache_setitem k x_mapped
          | None => raise (Exn "UnboundLocalError" "x_hashable")
          end
        else ret tt) ;;
  ret x_mapped.

(** [preprocessor.__call__] *)
Definition __call__ (self : preprocessor) (x : val) : M val :=
  if memoize self then
    x_hashable <- invoke (CallKey x) (_memoize_key self x) ;;
    hit <- cache_contains x_hashable ;;
    if (hit : bool) then cache_getitem x_hashable
    else call_miss self x (Some x_hashable)
  else call_miss self x None.

(** The call gets past the cache lookup and reaches the deep copy on
    heap [h0]: memoization is disabled, or the key function returned a
    key that is not in the cache. *)
Definition reaches_copy (self : preprocessor) (x : val) (st : state) (h0 : heap) : Prop :=
  (memoize self = false ∧ h0 = st_heap st) ∨
  (memoize self = true ∧
   ∃ k, _memoize_key self x (st_heap st) = (Return k, h0) ∧ _cache st !! k = None).

(** Successive calls on one instance, whatever each returns or raises. *)
Fixpoint call_each (self : preprocessor) (xs : list val) (st : state) : state :=
  match xs with
  | [] => st
  | x :: rest => call_each self rest (snd (__call__ self x st))
  end.

(** *** The computation on the heap alone

    What lines 92-96 do to the heap, with the calls they make: used to
    state that the cache plays no part in them. *)

Fixpoint pre_chain (pre : list mapper) (i : nat) (v : val) (h : heap)
  : outcome val * heap * list event :=
  match pre with
  | [] => (Return v, h, [])
  | m :: rest =>
      match m_call m v h with
      | (Return v', h') =>
          let '(r, h'', evs) := pre_chain rest (S i) v' h' in
          (r, h'', CallPre i v :: evs)
      | (Raise e, h') => (Raise e, h', [CallPre i v])
      end
  end.

Definition pipeline (self : preprocessor) (x : val) (h : heap)
  : outcome val * heap * list event :=
  match deepcopy x h with
  | (Return c, h1) =>
      match pre_chain (_pre self) 0 c h1 with
      | (Return b, h2, evs) =>
          let '(r, h3) := _generate_mapped_data_point self b h2 in
          (r, h3, CallDeepcopy x :: evs ++ [CallGen b])
      | (Raise e, h2, evs) => (Raise e, h2, CallDeepcopy x :: evs)
      end
  | (Raise e, h1) => (Raise e, h1, [CallDeepcopy x])
  end.

End Preprocessor.

Arguments preprocessor K : clear implicits.
Arguments state K {_ _} : assert.

(** ** [preprocessor.__repr__] *)

(** [str] of a Python list whose elements print as [items]. *)
Definition list_str (items : list string) : string :=
  "[" ++ String.concat ", " items ++ "]".

Definition __repr__ {K} (self : preprocessor K) : string :=
  let pre_str := ", Pre: " ++ list_str (m_repr <$> _pre self) in
  type_name self ++ " " ++ name self ++ pre_str.

(** ** Classes and the marker subclasses *)

(** What a class body can bind: data (a docstring, say) or a method,
    which receives [self] and the other arguments. *)
Inductive attr : Type :=
  | AData (v : val)
  | AMethod (f : list val → heap → outcome val * heap).

(** A class: its name, the bindings of its own body, and its base
    class (single inheritance, which is all this module uses);
    [PyObject] is the root class [object]. *)
Inductive pyclass : Type :=
  | PyObject
  | PyClass (cname : string) (own : gmap string attr) (base : pyclass).

Definition class_name (c : pyclass) : string :=
  match c with
  | PyObject => "object"
  | PyClass n _ _ => n
  end.

(** Attribute lookup along the method resolution order. *)
Fixpoint class_lookup (c : pyclass) (a : string) : option attr :=
  match c with
  | PyObject => None
  | PyClass _ own base =>
      match own !! a with
      | Some b => Some b
      | None => class_lookup base a
      end
  end.

(** [getattr(type(self), m)(self, *args)] *)
Definition call_method (c : pyclass) (m : string) (args : list val) (h : heap)
  : outcome val * heap :=
  match class_lookup c m with
  | Some (AMethod f) => f args h
  | Some (AData _) => (Raise (Exn "TypeError" "object is not callable"), h)
  | None => (Raise (Exn "AttributeError" m), h)
  end.

(** What a class statement binds besides the names its body defines. *)
Definition class_metadata (qualname doc : string) : gmap string attr :=
  {[ "__module__" := AData (VStr "snorkel.preprocess.core");
     "__qualname__" := AData (VStr qualname);
     "__doc__" := AData (VStr doc) ]}.

Definition metadata_names : list string := ["__module__"; "__qualname__"; "__doc__"].

(** [class Preprocessor(Mapper): pass] *)
Definition Preprocessor (Mapper : pyclass) : pyclass :=
  PyClass "Preprocessor"
    (class_metadata "Preprocessor" "Base class for preprocessors.

    See ``snorkel.map.core.Mapper`` for details.
    ")
    Mapper.

(** [class LambdaPreprocessor(LambdaMapper): pass] *)
Definition LambdaPreprocessor (LambdaMapper : pyclass) : pyclass :=
  PyClass "LambdaPreprocessor"
    (class_metadata "LambdaPreprocessor"
       "Convenience class for defining preprocessors from functions.

    See ``snorkel.map.core.LambdaMapper`` for details.
    ")
    LambdaMapper.

(** [class preprocessor(lambda_mapper)] (lines 40-103): besides the
    metadata, its body binds [__call__] and [__repr__], and no other
    name.  The base class is not part of this module, and neither is
    the layout of an instance in the heap, so the two bodies are given
    as methods on heap objects. *)
Definition preprocessor_class (lambda_mapper : pyclass) (doc : string)
    (call_body repr_body : list val → heap → outcome val * heap) : pyclass :=
  PyClass "preprocessor"
    (<["__call__" := AMethod call_body]>
       (<["__repr__" := AMethod repr_body]> (class_metadata "preprocessor" doc)))
    lambda_mapper.

(** [__repr__] as the method the class binds: [load] reads the
    attributes of the instance off the heap. *)
Definition repr_method {K} (load : heap → val → option (preprocessor K))
  : list val → heap → outcome val * heap :=
  fun args h =>
    match args with
    | [self] =>
        match load h self with
        | Some p => (Return (VStr (__repr__ p)), h)
        | None => (Raise (Exn "AttributeError" "name"), h)
        end
    | _ => (Raise (Exn "TypeError" "__repr__() takes 1 positional argument"), h)
    end.

(** ** [copy.deepcopy] on this heap

    The standard library's algorithm ([Lib/copy.py]), for the values
    modelled here.  An atom is returned as it is.  An object already
    copied in this pass is taken from [memo].  Otherwise the type of the
    object decides, in this order:
    - a type that the dispatch table copies atomically (functions,
      built-in functions, code objects, [type], [range], [weakref.ref],
      [property]), or a metaclass (the object is a class): the object is
      returned as it is, whatever it holds;
    - a class with a copier of its own ([__deepcopy__], or failing that
      an entry in [copyreg.dispatch_table] or its own [__reduce_ex__],
      [__reduce__], [__getstate__] or [__setstate__]): the copy is what
      that copier makes;
    - any other class: [object.__reduce_ex__] rebuilds the object, as a
      new instance of its class whose [__dict__] is updated with the
      deep copy of the original's. *)

(** How [copy.deepcopy] copies the instances of a class. *)
Inductive copier : Type :=
  | Atomic
  | Own (copy : loc → heap → outcome val * heap)
  | Rebuild.


(** A new object, at a location no object has. *)
Definition alloc (h : heap) (o : obj) : loc * heap :=
  let l := fresh (dom h) in (l, <[l := o]> h).

Section Deepcopy.

(** The copier of each class, by the name of the class. *)
Variable copier_of : string → copier.

(** [sys.getrecursionlimit()] *)
Variable recursion_limit : nat.

(** The deep copy of a [__dict__], item by item, [memo] and the heap
    going from one item to the next. *)
Fixpoint copy_items
    (rec : val → gmap loc val → heap → outcome (val * gmap loc val) * heap)
    (items : list (string * val)) (memo : gmap loc val) (h : heap)
  : outcome (gmap string val * gmap loc val) * heap :=
  match items with
  | [] => (Return (∅, memo), h)
  | (a, v) :: rest =>
      match rec v memo h with
      | (Return (v', memo1), h1) =>
          match copy_items rec rest memo1 h1 with
          | (Return (d, memo2), h2) => (Return (<[a := v']> d, memo2), h2)
          | (Raise e, h2) => (Raise e, h2)
          end
      | (Raise e, h1) => (Raise e, h1)
      end
  end.

(** [deepcopy(x, memo)], with [depth] nested calls left before Python
    raises [RecursionError].  The new instance is entered in [memo]
    before its attributes are copied, so shared and cyclic references
    are copied once. *)
Fixpoint deepcopy_rec (depth : nat) (x : val) (memo : gmap loc val) (h : heap)
  : outcome (val * gmap loc val) * heap :=
  match depth with
  | O => (Raise (Exn "RecursionError" "maximum recursion depth exceeded"), h)
  | S depth' =>
      match x with
      | VRef l =>
          match memo !! l with
          | Some y => (Return (y, memo), h)
          | None =>
              match h !! l with
              | None => (Raise (Exn "ReferenceError" "no such object"), h)
              | Some o =>
                  match copier_of (o_class o) with
                  | Atomic => (Return (x, memo), h)
                  | Own copy =>
                      match copy l h with
                      | (Return y, h1) =>
                          (Return (y, if decide (y = VRef l) then memo
                                      else <[l := y]> memo), h1)
                      | (Raise e, h1) => (Raise e, h1)
                      end
                  | Rebuild =>
                      let '(l', h1) := alloc h (Obj (o_class o) ∅) in
                      let memo1 := <[l := VRef l']> memo in
                      match copy_items (deepcopy_rec depth')
                              (map_to_list (o_attrs o)) memo1 h1 with
                      | (Return (d, memo2), h2) =>
                          let old := default ∅ (o_attrs <$> h2 !! l') in
                          (Return (VRef l', memo2),
                           <[l' := Obj (o_class o) (d ∪ old)]> h2)
                      | (Raise e, h2) => (Raise e, h2)
                      end
                  end
              end
          end
      | _ => (Return (x, memo), h)
      end
  end.

(** [copy.deepcopy(x)] *)
Definition py_deepcopy : callable val :=
  fun x h =>
    match deepcopy_rec recursion_limit x ∅ h with
    | (Return (y, _), h') => (Return y, h')
    | (Raise e, h') => (Raise e, h')
    end.

End Deepcopy.

(** ** Reachability and confinement *)

(** The objects a value gives access to: itself, and whatever its
    attributes give access to. *)
Inductive reachable (h : heap) : val → loc → Prop :=
  | reachable_here l : reachable h (VRef l) l
  | reachable_attr l o a v l' :
      h !! l = Some o →
      o_attrs o !! a = Some v →
      reachable h v l' →
      reachable h (VRef l) l'.

(** No object of [D] can be reached from [v]. *)
Definition separate (D : gset loc) (h : heap) (v : val) : Prop :=
  ∀ l, reachable h v l → l ∉ D.

(** The objects of [D] are in [h'] what they were in [h]. *)
Definition unchanged_on (D : gset loc) (h h' : heap) : Prop :=
  ∀ l, l ∈ D → h' !! l = h !! l.

(** A callable that works through its argument only, as far as the
    objects of [D] go: given a value from which none of them can be
    reached, it changes none of them and returns a value from which none
    of them can be reached. *)
Definition confined (D : gset loc) (f : callable val) : Prop :=
  ∀ v h r h',
    f v h = (r, h') →
    separate D h v →
    unchanged_on D h h' ∧ ∀ v', r = Return v' → separate D h' v'.

(** A value that is an atom or a reference into [S]. *)
Definition val_in (S : gset loc) (v : val) : Prop :=
  match v with
  | VRef l => l ∈ S
  | _ => True
  end.

#[global] Instance val_in_dec S v : Decision (val_in S v).
Proof. destruct v; simpl; apply _. Defined.






(** ** Example data points and preprocessors *)

(** A class that defines [__deepcopy__] as a copy of the container
    only: the new object has the same attribute values, so objects held
    in attributes are shared with the original (pandas'
    [Series.__deepcopy__] is [self.copy(deep=True)], which does not copy
    the Python objects the series holds). *)
Definition container_copy (l : loc) (h : heap) : outcome val * heap :=
  match h !! l with
  | Some o => let '(l', h') := alloc h o in (Return (VRef l'), h')
  | None => (Raise (Exn "ReferenceError" "no such object"), h)
  end.

(** The names of the types that [_deepcopy_dispatch] copies with
    [_deepcopy_atomic]. *)
Definition atomic_type_names : list string :=
  ["NoneType"; "ellipsis"; "NotImplementedType"; "int"; "float"; "bool";
   "complex"; "bytes"; "str"; "code"; "type"; "range";
   "builtin_function_or_method"; "function"; "ReferenceType"; "property"].

Definition example_copier (cls : string) : copier :=
  if bool_decide (cls ∈ atomic_type_names) then Atomic
  else if decide (cls = "Series") then Own container_copy
  else Rebuild.

Definition example_deepcopy : callable val := py_deepcopy example_copier 1000.

(** [x.title] as the memoization key. *)
Definition title_key : callable string :=
  fun x h =>
    match getattr h x "title" with
    | Some (VStr s) => (Return s, h)
    | _ => (Raise (Exn "ValueError" "unhashable data point"), h)
    end.

(** The docstring's example: [x.article = f"{x.title} {x.body}"; return x]. *)
Definition combine_text : callable val :=
  fun x h =>
    match x, getattr h x "title", getattr h x "body" with
    | VRef l, Some (VStr t), Some (VStr b) =>
        (Return x, setattr h l "article" (VStr (t ++ " " ++ b)))
    | _, _, _ => (Raise (Exn "AttributeError" "title"), h)
    end.

(** [x.tokens.n = 1; return x]: an in-place change to an object held by [x]. *)
Definition mark_tokens : callable val :=
  fun x h =>
    match getattr h x "tokens" with
    | Some (VRef t) => (Return x, setattr h t "n" (VInt 1))
    | _ => (Raise (Exn "AttributeError" "tokens"), h)
    end.

(** A step that always raises. *)
Definition failing_step : callable val :=
  fun x h => (Raise (Exn "ValueError" "bad input"), h).

Definition example_preprocessor (memo : bool) (pre : list mapper) (g : callable val)
  : preprocessor string :=
  {| type_name := "preprocessor";
     name := "combine_text_preprocessor";
     memoize := memo;
     _memoize_key := title_key;
     _pre := pre;
     _generate_mapped_data_point := g |}.

Definition article_heap : heap :=
  {[ 1%positive := Obj "SimpleNamespace" {[ "title" := VStr "A"; "body" := VStr "B" ]} ]}.

(** A row of class [cls] holding a mutable object in [tokens]. *)
Definition row_heap (cls : string) : heap :=
  {[ 1%positive := Obj cls {[ "title" := VStr "A"; "tokens" := VRef 2%positive ]};
     2%positive := Obj "SimpleNamespace" {[ "n" := VInt 0 ]} ]}.

Definition initial_state (h : heap) : state string := State h ∅ [].

(** A plain row holding a function object in [tokens]. *)
Definition callback_row_heap : heap :=
  {[ 1%positive := Obj "SimpleNamespace" {[ "title" := VStr "A"; "tokens" := VRef 2%positive ]};
     2%positive := Obj "function" {[ "n" := VInt 0 ]} ]}.

(** [x.title = x.title + "!"; return x] *)
Definition exclaim_title : callable val :=
  fun x h =>
    match x, getattr h x "title" with
    | VRef l, Some (VStr t) => (Return x, setattr h l "title" (VStr (t ++ "!")))
    | _, _ => (Raise (Exn "AttributeError" "title"), h)
    end.

(** [return x] *)
Definition keep : callable val := fun x h => (Return x, h).

Definition exclaim_mapper : mapper := Mapper_obj exclaim_title "Mapper exclaim, Pre: []".
Definition combine_mapper : mapper := Mapper_obj combine_text "Mapper combine, Pre: []".
Definition failing_mapper : mapper := Mapper_obj failing_step "Mapper failing, Pre: []".

(** Two data points with the same title and different bodies. *)
Definition two_rows_heap : heap :=
  {[ 1%positive := Obj "SimpleNamespace" {[ "title" := VStr "A"; "body" := VStr "B" ]};
     2%positive := Obj "SimpleNamespace" {[ "title" := VStr "A"; "body" := VStr "C" ]} ]}.

(** A cache that holds [None] for the key ["A"]. *)
Definition none_cached_state : state string :=
  State article_heap {[ "A" := VNone ]} [].

(** A cache that holds an entry under another key. *)
Definition other_cached_state : state string :=
  State article_heap {[ "Z" := VInt 1 ]} [].

(** A stand-in for the absent base class [Mapper]: one method. *)
Definition example_Mapper : pyclass :=
  PyClass "Mapper"
    {[ "__call__" := AMethod (fun args h => (Return (default VNone (args !! 1%nat)), h)) ]}
    PyObject.

(** ** Substrings *)

Definition substring_of (s t : string) : Prop :=
  ∃ before after, t = before ++ s ++ after.

(** ** Batches of calls *)

(** Successive calls on one instance, with what each returned or raised. *)
Fixpoint call_all {K : Type} `{Countable K} (deepcopy : callable val)
    (self : preprocessor K) (xs : list val) (st : state K)
  : list (outcome val) * state K :=
  match xs with
  | [] => ([], st)
  | x :: rest =>
      let '(r, st1) := __call__ deepcopy self x st in
      let '(rs, st2) := call_all deepcopy self rest st1 in
      (r :: rs, st2)
  end.

Definition returned {A} (r : outcome A) : Prop :=
  match r with
  | Return _ => True
  | Raise _ => False
  end.

(** ** Preprocessors made of functions without effects *)

(** What the deep copy, the pre-steps and the core function compute when
    each is a function of its argument alone. *)
Definition pure_pipeline (copy : val → val) (ps : list (val → val)) (g : val → val)
    (x : val) : val :=
  g (fold_left (λ v p, p v) ps (copy x)).

(** Every cached value is what the pipeline computes for the data points
    of its key. *)
Definition cache_consistent {K : Type} `{Countable K} (kf : val → K) (F : val → val)
    (c : gmap K val) : Prop :=
  ∀ k v, c !! k = Some v → ∀ x, kf x = k → F x = v.



(** A step that drops the data point. *)
Definition drop_step : callable val := fun x h => (Return VNone, h).

Definition drop_mapper : mapper := Mapper_obj drop_step "Mapper drop, Pre: []".

(** [id(x)] as the memoization key. *)
Definition loc_of (v : val) : positive :=
  match v with
  | VRef l => l
  | _ => 1%positive
  end.

Definition identity_keyed_preprocessor : preprocessor positive :=
  {| type_name := "preprocessor";
     name := "combine_text_preprocessor";
     memoize := true;
     _memoize_key := pure_callable loc_of;
     _pre := [];
     _generate_mapped_data_point := combine_text |}.

(** Functions of integer data points, without effects. *)
Definition int_of (v : val) : Z :=
  match v with
  | VInt n => n
  | _ => 0%Z
  end.

Definition succ_val (v : val) : val := VInt (int_of v + 1).

Definition double_val (v : val) : val := VInt (2 * int_of v).

Definition arithmetic_preprocessor : preprocessor Z :=
  {| type_name := "preprocessor";
     name := "double_successor";
     memoize := true;
     _memoize_key := pure_callable int_of;
     _pre := [Mapper_obj (pure_callable succ_val) "Mapper successor, Pre: []"];
     _generate_mapped_data_point := pure_callable double_val |}.

(** * Properties of [__call__] *)

Local Close Scope string_scope.

Section Call_properties.

Context {K : Type} `{Countable K}.
Variable deepcopy : callable val.

Implicit Types (self : preprocessor K) (st : state K) (x v : val) (k : K).

(** The loop over [self._pre] touches the heap and the log only. *)
Lemma run_pre_chain pre i v st :
  run_pre pre i v st =
    let '(r, h', evs) := pre_chain pre i v (st_heap st) in
    (r, State h' (_cache st) (st_log st ++ evs)).
Proof.
  revert i v st. induction pre as [|m rest IH]; intros i v st; simpl.
  - destruct st; unfold ret; simpl. by rewrite app_nil_r.
  - unfold bind, invoke.
    destruct (m_call m v (st_heap st)) as [[v'|e] h'] eqn:Hm; [|done].
    rewrite IH. simpl.
    destruct (pre_chain rest (S i) v' h') as [[r h''] evs].
    by rewrite <- app_assoc.
Qed.

(** Lines 92-99 in terms of [pipeline]. *)
Lemma call_miss_pipeline self x (xh : option K) st :
  call_miss deepcopy self x xh st =
    match pipeline deepcopy self x (st_heap st) with
    | (Return r, h', evs) =>
        if memoize self then
          match xh with
          | Some k =>
              (Return r, State h' (<[k := r]> (_cache st)) (st_log st ++ evs))
          | None =>
              (Raise (Exn "UnboundLocalError" "x_hashable"),
               State h' (_cache st) (st_log st ++ evs))
          end
        else (Return r, State h' (_cache st) (st_log st ++ evs))
    | (Raise e, h', evs) => (Raise e, State h' (_cache st) (st_log st ++ evs))
    end.
Proof.
  unfold call_miss, pipeline, bind, invoke at 1.
  destruct (deepcopy x (st_heap st)) as [[c|e] h1]; [|done].
  rewrite run_pre_chain. simpl.
  destruct (pre_chain (_pre self) 0 c h1) as [[[b|e] h2] evs];
    [|by rewrite <- app_assoc].
  unfold invoke. simpl.
  destruct (_generate_mapped_data_point self b h2) as [[r|e] h3];
    rewrite <- !app_assoc; simpl; [|done].
  destruct (memoize self); [destruct xh|]; done.
Qed.

(** [__call__] with memoization disabled. *)
Lemma call_disabled self x st :
  memoize self = false →
  __call__ deepcopy self x st =
    let '(r, h', evs) := pipeline deepcopy self x (st_heap st) in
    (r, State h' (_cache st) (st_log st ++ evs)).
Proof.
  intros Hm. unfold __call__. rewrite Hm, call_miss_pipeline, Hm.
  by destruct (pipeline deepcopy self x (st_heap st)) as [[[r|e] h'] evs].
Qed.

(** [__call__] with memoization enabled, by what the key function and
    the lookup do. *)
Lemma call_enabled self x st :
  memoize self = true →
  __call__ deepcopy self x st =
    match _memoize_key self x (st_heap st) with
    | (Raise e, h0) => (Raise e, State h0 (_cache st) (st_log st ++ [CallKey x]))
    | (Return k, h0) =>
        match _cache st !! k with
        | Some v => (Return v, State h0 (_cache st) (st_log st ++ [CallKey x]))
        | None =>
            match pipeline deepcopy self x h0 with
            | (Return r, h', evs) =>
                (Return r, State h' (<[k := r]> (_cache st))
                             (st_log st ++ CallKey x :: evs))
            | (Raise e, h', evs) =>
                (Raise e, State h' (_cache st) (st_log st ++ CallKey x :: evs))
            end
        end
    end.
Proof.
  intros Hm. unfold __call__. rewrite Hm. unfold bind at 1, invoke at 1.
  destruct (_memoize_key self x (st_heap st)) as [[k|e] h0]; [|done].
  unfold bind, cache_contains, cache_getitem. simpl.
  destruct (_cache st !! k) as [v|] eqn:Hk.
  - rewrite bool_decide_eq_true_2 by eauto. simpl. by rewrite Hk.
  - rewrite bool_decide_eq_false_2 by (intros [? ?]; congruence).
    rewrite call_miss_pipeline, Hm. simpl.
    destruct (pipeline deepcopy self x h0) as [[[r|e] h'] evs];
      by rewrite <- app_assoc.
Qed.

(** A present key: the cached value comes back after the key function
    alone has run. *)
Lemma call_hit self x st k v h0 :
  memoize self = true →
  _memoize_key self x (st_heap st) = (Return k, h0) →
  _cache st !! k = Some v →
  __call__ deepcopy self x st =
    (Return v, State h0 (_cache st) (st_log st ++ [CallKey x])).
Proof. intros Hm Hk Hc. by rewrite call_enabled, Hk, Hc. Qed.

(** An absent key: the call goes on to [pipeline] and stores what it
    returns. *)
Lemma call_absent self x st k h0 :
  memoize self = true →
  _memoize_key self x (st_heap st) = (Return k, h0) →
  _cache st !! k = None →
  __call__ deepcopy self x st =
    match pipeline deepcopy self x h0 with
    | (Return r, h', evs) =>
        (Return r, State h' (<[k := r]> (_cache st)) (st_log st ++ CallKey x :: evs))
    | (Raise e, h', evs) =>
        (Raise e, State h' (_cache st) (st_log st ++ CallKey x :: evs))
    end.
Proof. intros Hm Hk Hc. by rewrite call_enabled, Hk, Hc. Qed.

(** Every run of [pipeline] starts with the deep copy. *)
Lemma pipeline_log_head self x h :
  ∃ evs, (pipeline deepcopy self x h).2 = CallDeepcopy x :: evs.
Proof.
  unfold pipeline.
  destruct (deepcopy x h) as [[c|e] h1]; [|by eexists].
  destruct (pre_chain (_pre self) 0 c h1) as [[[b|e] h2] evs]; [|by eexists].
  destruct (_generate_mapped_data_point self b h2) as [r h3]. by eexists.
Qed.

(** C1: with memoization enabled, a key that is present in the cache
    makes the call return the cached value at once: the key function is
    the only call made and the cache is left as it was.  This holds for
    every cached value, [None] included, while an absent key makes the
    call go on to the deep copy: "present with value None" and "absent"
    are told apart. *)
Theorem cached_value_returned_immediately self x st k h0 :
  memoize self = true →
  _memoize_key self x (st_heap st) = (Return k, h0) →
  (∀ v, _cache st !! k = Some v →
        __call__ deepcopy self x st =
          (Return v, State h0 (_cache st) (st_log st ++ [CallKey x])))
  ∧ (_cache st !! k = Some VNone →
        __call__ deepcopy self x st =
          (Return VNone, State h0 (_cache st) (st_log st ++ [CallKey x])))
  ∧ (_cache st !! k = None →
        ∃ evs : list event,
          st_log (__call__ deepcopy self x st).2 =
            (st_log st ++ CallKey x :: CallDeepcopy x :: evs)%list).
Proof.
  intros Hm Hk. split_and!.
  - intros v Hc. by apply (call_hit self x st k).
  - intros Hc. by apply (call_hit self x st k).
  - intros Hc. rewrite (call_absent _ _ _ _ _ Hm Hk Hc).
    destruct (pipeline_log_head self x h0) as [evs Hevs].
    destruct (pipeline deepcopy self x h0) as [[[r|e] h'] evs'];
      simpl in *; subst; by eexists.
Qed.

(** Past the lookup, the call is [pipeline]: same outcome, same heap,
    and its calls after those made so far. *)
Lemma call_from_copy self x st h0 r h' evs :
  reaches_copy self x st h0 →
  pipeline deepcopy self x h0 = (r, h', evs) →
  (__call__ deepcopy self x st).1 = r
  ∧ st_heap (__call__ deepcopy self x st).2 = h'
  ∧ (∃ prefix : list event,
       st_log (__call__ deepcopy self x st).2 = (prefix ++ evs)%list)
  ∧ (∀ e, r = Raise e → _cache (__call__ deepcopy self x st).2 = _cache st).
Proof.
  intros [[Hm ->]|[Hm (k & Hk & Hc)]] Hp.
  - rewrite (call_disabled _ _ _ Hm), Hp. simpl. eauto.
  - rewrite (call_absent _ _ _ _ _ Hm Hk Hc), Hp.
    destruct r as [r|e]; simpl; split_and!; try done.
    + exists (st_log st ++ [CallKey x])%list. by rewrite <- app_assoc.
    + exists (st_log st ++ [CallKey x])%list. by rewrite <- app_assoc.
Qed.

(** C2: on a cache miss or with memoization disabled, with pre-steps
    [f1; f2] the call returns what the core function returns on what
    [f2] returns on what [f1] returns on the deep copy of [x], each step
    running on the heap the previous one left, in that order; with no
    pre-steps it returns what the core function returns on the deep
    copy.  For functions without effects this is [g (f2 (f1 (copy x)))]
    and [g (copy x)]. *)
Theorem pre_steps_then_core_in_order self x st h0 :
  reaches_copy self x st h0 →
  (∀ f1 f2 c a b r h1 h2 h3 h4,
     _pre self = [f1; f2] →
     deepcopy x h0 = (Return c, h1) →
     m_call f1 c h1 = (Return a, h2) →
     m_call f2 a h2 = (Return b, h3) →
     _generate_mapped_data_point self b h3 = (Return r, h4) →
     (__call__ deepcopy self x st).1 = Return r
     ∧ st_heap (__call__ deepcopy self x st).2 = h4
     ∧ ∃ prefix : list event,
         st_log (__call__ deepcopy self x st).2 =
           (prefix ++ [CallDeepcopy x; CallPre 0 c; CallPre 1 a; CallGen b])%list)
  ∧ (∀ c r h1 h2,
     _pre self = [] →
     deepcopy x h0 = (Return c, h1) →
     _generate_mapped_data_point self c h1 = (Return r, h2) →
     (__call__ deepcopy self x st).1 = Return r
     ∧ st_heap (__call__ deepcopy self x st).2 = h2
     ∧ ∃ prefix : list event,
         st_log (__call__ deepcopy self x st).2 =
           (prefix ++ [CallDeepcopy x; CallGen c])%list)
  ∧ (∀ f1 f2 (copy p1 p2 g : val → val),
     deepcopy = pure_callable copy →
     _pre self = [f1; f2] →
     m_call f1 = pure_callable p1 →
     m_call f2 = pure_callable p2 →
     _generate_mapped_data_point self = pure_callable g →
     (__call__ deepcopy self x st).1 = Return (g (p2 (p1 (copy x)))))
  ∧ (∀ (copy g : val → val),
     deepcopy = pure_callable copy →
     _pre self = [] →
     _generate_mapped_data_point self = pure_callable g →
     (__call__ deepcopy self x st).1 = Return (g (copy x))).
Proof.
  intros Hreach. split_and!.
  - intros f1 f2 c a b r h1 h2 h3 h4 Hpre Hc H1 H2 Hg.
    assert (Hp : pipeline deepcopy self x h0 =
                 (Return r, h4, [CallDeepcopy x; CallPre 0 c; CallPre 1 a; CallGen b])).
    { unfold pipeline. rewrite Hc, Hpre. simpl. by rewrite H1, H2, Hg. }
    destruct (call_from_copy _ _ _ _ _ _ _ Hreach Hp) as (? & ? & ? & _). done.
  - intros c r h1 h2 Hpre Hc Hg.
    assert (Hp : pipeline deepcopy self x h0 =
                 (Return r, h2, [CallDeepcopy x; CallGen c])).
    { unfold pipeline. rewrite Hc, Hpre. simpl. by rewrite Hg. }
    destruct (call_from_copy _ _ _ _ _ _ _ Hreach Hp) as (? & ? & ? & _). done.
  - intros f1 f2 copy p1 p2 g Hc Hpre H1 H2 Hg.
    assert (Hp : pipeline deepcopy self x h0 =
                 (Return (g (p2 (p1 (copy x)))), h0,
                  [CallDeepcopy x; CallPre 0 (copy x); CallPre 1 (p1 (copy x));
                   CallGen (p2 (p1 (copy x)))])).
    { unfold pipeline. rewrite Hc, Hpre. simpl. by rewrite H1, H2, Hg. }
    by destruct (call_from_copy _ _ _ _ _ _ _ Hreach Hp) as (? & _).
  - intros copy g Hc Hpre Hg.
    assert (Hp : pipeline deepcopy self x h0 =
                 (Return (g (copy x)), h0, [CallDeepcopy x; CallGen (copy x)])).
    { unfold pipeline. rewrite Hc, Hpre. simpl. by rewrite Hg. }
    by destruct (call_from_copy _ _ _ _ _ _ _ Hreach Hp) as (? & _).
Qed.

(** The loop stops at the first pre-step that raises. *)
Lemma pre_chain_raise before m after i c h vj hj evs e h' :
  pre_chain before i c h = (Return vj, hj, evs) →
  m_call m vj hj = (Raise e, h') →
  pre_chain (before ++ m :: after) i c h =
    (Raise e, h', (evs ++ [CallPre (i + length before) vj])%list).
Proof.
  revert i c h evs. induction before as [|m0 before IH]; intros i c h evs; simpl.
  - intros [= -> -> <-] Hm. rewrite Hm. by rewrite Nat.add_0_r.
  - destruct (m_call m0 c h) as [[v'|e0] h1]; [|done].
    destruct (pre_chain before (S i) v' h1) as [[r h2] evs1] eqn:Hrest.
    intros [= -> -> <-] Hm.
    rewrite (IH _ _ _ _ Hrest Hm). simpl. by rewrite Nat.add_succ_r.
Qed.

(** Whenever the call raises, the cache is as it was. *)
Lemma call_raise_cache self x st e :
  (__call__ deepcopy self x st).1 = Raise e →
  _cache (__call__ deepcopy self x st).2 = _cache st.
Proof.
  destruct (memoize self) eqn:Hm.
  - rewrite (call_enabled _ _ _ Hm).
    destruct (_memoize_key self x (st_heap st)) as [[k|e0] h0]; [|done].
    destruct (_cache st !! k); [done|].
    by destruct (pipeline deepcopy self x h0) as [[[r|e0] h'] evs].
  - rewrite (call_disabled _ _ _ Hm).
    by destruct (pipeline deepcopy self x (st_heap st)) as [[r h'] evs].
Qed.

(** C4: an exception raised by the key function, by the deep copy, by
    any pre-step or by the core function is the exception the call
    raises, and the cache is then as it was before the call (no entry
    is added); and every exception of the call is one that the key
    function or one of those steps raised. *)
Theorem exceptions_propagate_cache_unchanged self x st :
  (∀ e h0,
     memoize self = true →
     _memoize_key self x (st_heap st) = (Raise e, h0) →
     (__call__ deepcopy self x st).1 = Raise e
     ∧ _cache (__call__ deepcopy self x st).2 = _cache st)
  ∧ (∀ h0, reaches_copy self x st h0 →
       (∀ e h1,
          deepcopy x h0 = (Raise e, h1) →
          (__call__ deepcopy self x st).1 = Raise e
          ∧ _cache (__call__ deepcopy self x st).2 = _cache st)
       ∧ (∀ c h1 before m after vj hj evs e h2,
          deepcopy x h0 = (Return c, h1) →
          _pre self = (before ++ m :: after)%list →
          pre_chain before 0 c h1 = (Return vj, hj, evs) →
          m_call m vj hj = (Raise e, h2) →
          (__call__ deepcopy self x st).1 = Raise e
          ∧ _cache (__call__ deepcopy self x st).2 = _cache st)
       ∧ (∀ c h1 b h2 evs e h3,
          deepcopy x h0 = (Return c, h1) →
          pre_chain (_pre self) 0 c h1 = (Return b, h2, evs) →
          _generate_mapped_data_point self b h2 = (Raise e, h3) →
          (__call__ deepcopy self x st).1 = Raise e
          ∧ _cache (__call__ deepcopy self x st).2 = _cache st))
  ∧ (∀ e,
       (__call__ deepcopy self x st).1 = Raise e →
       _cache (__call__ deepcopy self x st).2 = _cache st
       ∧ ((memoize self = true ∧
           ∃ h0, _memoize_key self x (st_heap st) = (Raise e, h0))
          ∨ (∃ h0 h' evs, reaches_copy self x st h0 ∧
               pipeline deepcopy self x h0 = (Raise e, h', evs)))).
Proof.
  split_and!.
  - intros e h0 Hm Hk. rewrite (call_enabled _ _ _ Hm), Hk. done.
  - intros h0 Hreach. split_and!.
    + intros e h1 Hc.
      assert (Hp : pipeline deepcopy self x h0 = (Raise e, h1, [CallDeepcopy x]))
        by (unfold pipeline; by rewrite Hc).
      destruct (call_from_copy _ _ _ _ _ _ _ Hreach Hp) as (? & _ & _ & Hcache).
      eauto.
    + intros c h1 before m after vj hj evs e h2 Hc Hpre Hbefore Hm.
      assert (Hp : pipeline deepcopy self x h0 =
                   (Raise e, h2,
                    CallDeepcopy x :: (evs ++ [CallPre (0 + length before) vj])%list)).
      { unfold pipeline. rewrite Hc, Hpre.
        by rewrite (pre_chain_raise _ _ after _ _ _ _ _ _ _ _ Hbefore Hm). }
      destruct (call_from_copy _ _ _ _ _ _ _ Hreach Hp) as (? & _ & _ & Hcache).
      eauto.
    + intros c h1 b h2 evs e h3 Hc Hpre Hg.
      assert (Hp : pipeline deepcopy self x h0 =
                   (Raise e, h3, CallDeepcopy x :: (evs ++ [CallGen b])%list)).
      { unfold pipeline. by rewrite Hc, Hpre, Hg. }
      destruct (call_from_copy _ _ _ _ _ _ _ Hreach Hp) as (? & _ & _ & Hcache).
      eauto.
  - intros e Hraise. split; [by eapply call_raise_cache|].
    revert Hraise. destruct (memoize self) eqn:Hm.
    + rewrite (call_enabled _ _ _ Hm).
      destruct (_memoize_key self x (st_heap st)) as [[k|e0] h0] eqn:Hk.
      * destruct (_cache st !! k) eqn:Hc; [done|].
        destruct (pipeline deepcopy self x h0) as [[[r|e0] h'] evs] eqn:Hp; [done|].
        intros [= ->]. right. exists h0, h', evs. split; [|done].
        right. eauto.
      * intros [= ->]. left. eauto.
    + rewrite (call_disabled _ _ _ Hm).
      destruct (pipeline deepcopy self x (st_heap st)) as [[r h'] evs] eqn:Hp.
      simpl. intros ->. right. exists (st_heap st), h', evs. split; [|done].
      by left.
Qed.

(** A memoized call that returns leaves its result in the cache under
    the key of its argument, whether it found it there or stored it. *)
Lemma call_returns_cached self x st k h0 v st1 :
  memoize self = true →
  _memoize_key self x (st_heap st) = (Return k, h0) →
  __call__ deepcopy self x st = (Return v, st1) →
  _cache st1 !! k = Some v.
Proof.
  intros Hm Hk. rewrite (call_enabled _ _ _ Hm), Hk.
  destruct (_cache st !! k) as [v0|] eqn:Hc.
  - by intros [= <- <-].
  - destruct (pipeline deepcopy self x h0) as [[[r|e] h'] evs]; [|done].
    intros [= <- <-]. simpl. apply lookup_insert_eq.
Qed.

(** C5: with memoization enabled, after a call on [x] has returned [v]
    the cache holds [v] under the key of [x], and a second call on [x]
    whose key is unchanged returns that same [v] after running the key
    function only: no deep copy, pre-step or core function runs and the
    cache is left as the first call left it. *)
Theorem second_call_returns_stored_value self x st v st1 k h1 h2 :
  memoize self = true →
  _memoize_key self x (st_heap st) = (Return k, h1) →
  __call__ deepcopy self x st = (Return v, st1) →
  _memoize_key self x (st_heap st1) = (Return k, h2) →
  _cache st1 !! k = Some v
  ∧ __call__ deepcopy self x st1 =
      (Return v, State h2 (_cache st1) (st_log st1 ++ [CallKey x])).
Proof.
  intros Hm Hk1 Hcall Hk2.
  pose proof (call_returns_cached _ _ _ _ _ _ _ Hm Hk1 Hcall) as Hc.
  split; [done|]. by apply (call_hit self x st1 k).
Qed.

(** C8: with memoization enabled, if the keys of [x1] and [x2] are
    equal, then after a call on [x1] has returned [v] a call on [x2]
    returns [v] too, whatever else differs between the two data points:
    only the key function runs on [x2]. *)
Theorem equal_keys_share_cached_value self x1 x2 st v st1 k h1 h2 :
  memoize self = true →
  _memoize_key self x1 (st_heap st) = (Return k, h1) →
  __call__ deepcopy self x1 st = (Return v, st1) →
  _memoize_key self x2 (st_heap st1) = (Return k, h2) →
  __call__ deepcopy self x2 st1 =
    (Return v, State h2 (_cache st1) (st_log st1 ++ [CallKey x2])).
Proof.
  intros Hm Hk1 Hcall Hk2.
  apply (call_hit self x2 st1 k); [done..|].
  exact (call_returns_cached _ _ _ _ _ _ _ Hm Hk1 Hcall).
Qed.

(** The calls [pipeline] makes never include the key function. *)
Lemma pre_chain_no_key pre i v h :
  Forall (λ ev, is_key_event ev = false) (pre_chain pre i v h).2.
Proof.
  revert i v h. induction pre as [|m rest IH]; intros i v h; simpl; [done|].
  destruct (m_call m v h) as [[v'|e] h']; [|by repeat constructor].
  specialize (IH (S i) v' h').
  destruct (pre_chain rest (S i) v' h') as [[r h''] evs]. by constructor.
Qed.

Lemma pipeline_no_key self x h :
  Forall (λ ev, is_key_event ev = false) (pipeline deepcopy self x h).2.
Proof.
  unfold pipeline.
  destruct (deepcopy x h) as [[c|e] h1]; [|by repeat constructor].
  pose proof (pre_chain_no_key (_pre self) 0 c h1) as Hpre.
  destruct (pre_chain (_pre self) 0 c h1) as [[[b|e] h2] evs]; simpl in *.
  - destruct (_generate_mapped_data_point self b h2) as [r h3]. simpl.
    constructor; [done|]. apply Forall_app. by repeat constructor.
  - by constructor.
Qed.

(** The pre-steps enter [pre_chain] through [m_call] only. *)
Lemma pre_chain_ext pre pre' i v h :
  m_call <$> pre = m_call <$> pre' →
  pre_chain pre i v h = pre_chain pre' i v h.
Proof.
  revert pre' i v h. induction pre as [|m rest IH]; intros [|m' rest'] i v h;
    simpl; try done.
  intros [= Hm Hrest]. rewrite Hm.
  destruct (m_call m' v h) as [[v'|e] h']; [|done].
  by rewrite (IH rest').
Qed.

Lemma pipeline_ext self self' x h :
  m_call <$> _pre self = m_call <$> _pre self' →
  _generate_mapped_data_point self = _generate_mapped_data_point self' →
  pipeline deepcopy self x h = pipeline deepcopy self' x h.
Proof.
  intros Hpre Hg. unfold pipeline.
  destruct (deepcopy x h) as [[c|e] h1]; [|done].
  by rewrite (pre_chain_ext _ _ _ _ _ Hpre), Hg.
Qed.

(** Callables that change no existing object make a pipeline that
    changes none. *)
Lemma pre_chain_preserving pre i v h :
  Forall (λ m, preserving (m_call m)) pre →
  h ⊆ (pre_chain pre i v h).1.2.
Proof.
  intros Hpre. revert i v h.
  induction Hpre as [|m rest Hm _ IH]; intros i v h; simpl; [done|].
  destruct (m_call m v h) as [[v'|e] h'] eqn:Hcall; [|by eapply Hm].
  specialize (IH (S i) v' h').
  destruct (pre_chain rest (S i) v' h') as [[r h''] evs]. simpl in *.
  etrans; [by eapply Hm|done].
Qed.

Lemma pipeline_preserving self x h :
  preserving deepcopy →
  Forall (λ m, preserving (m_call m)) (_pre self) →
  preserving (_generate_mapped_data_point self) →
  h ⊆ (pipeline deepcopy self x h).1.2.
Proof.
  intros Hcopy Hpre Hg. unfold pipeline.
  destruct (deepcopy x h) as [[c|e] h1] eqn:Hc; [|by eapply Hcopy].
  pose proof (pre_chain_preserving (_pre self) 0 c h1 Hpre) as Hchain.
  destruct (pre_chain (_pre self) 0 c h1) as [[[b|e] h2] evs]; simpl in *.
  - destruct (_generate_mapped_data_point self b h2) as [r h3] eqn:Hgen. simpl.
    etrans; [by eapply Hcopy|]. etrans; [done|]. by eapply Hg.
  - etrans; [by eapply Hcopy|done].
Qed.

(** C6: with memoization disabled the call leaves the cache as it was,
    makes no call to the key function, and its outcome and heap are
    those of the deep copy, pre-steps and core function alone: they are
    the same for any other cache contents and any other key function.
    For any call, a cache that differs afterwards means memoization is
    enabled; and when the key function, the deep copy, the pre-steps and
    the core function change no existing object, neither does the call:
    the cache is all it changes. *)
Theorem disabled_leaves_cache_alone self x st :
  (memoize self = false →
     _cache (__call__ deepcopy self x st).2 = _cache st
     ∧ (∃ evs : list event,
          st_log (__call__ deepcopy self x st).2 = (st_log st ++ evs)%list
          ∧ Forall (λ ev, is_key_event ev = false) evs)
     ∧ (__call__ deepcopy self x st).1 = (pipeline deepcopy self x (st_heap st)).1.1
     ∧ st_heap (__call__ deepcopy self x st).2 = (pipeline deepcopy self x (st_heap st)).1.2
     ∧ (∀ self' st',
          memoize self' = false →
          m_call <$> _pre self' = m_call <$> _pre self →
          _generate_mapped_data_point self' = _generate_mapped_data_point self →
          st_heap st' = st_heap st →
          (__call__ deepcopy self' x st').1 = (__call__ deepcopy self x st).1
          ∧ st_heap (__call__ deepcopy self' x st').2 =
              st_heap (__call__ deepcopy self x st).2
          ∧ _cache (__call__ deepcopy self' x st').2 = _cache st'))
  ∧ (_cache (__call__ deepcopy self x st).2 ≠ _cache st → memoize self = true)
  ∧ (preserving (_memoize_key self) →
     preserving deepcopy →
     Forall (λ m, preserving (m_call m)) (_pre self) →
     preserving (_generate_mapped_data_point self) →
     st_heap st ⊆ st_heap (__call__ deepcopy self x st).2).
Proof.
  split_and!.
  - intros Hm. rewrite (call_disabled _ _ _ Hm).
    pose proof (pipeline_no_key self x (st_heap st)) as Hnk.
    destruct (pipeline deepcopy self x (st_heap st)) as [[r h'] evs] eqn:Hp.
    simpl in *. split_and!; try done.
    + by exists evs.
    + intros self' st' Hm' Hpre Hg Hh.
      rewrite (call_disabled _ _ _ Hm'), Hh.
      rewrite (pipeline_ext self' self _ _ Hpre Hg), Hp. done.
  - intros Hne. destruct (memoize self) eqn:Hm; [done|].
    exfalso. apply Hne. rewrite (call_disabled _ _ _ Hm).
    by destruct (pipeline deepcopy self x (st_heap st)) as [[r h'] evs].
  - intros Hkey Hcopy Hpre Hg. destruct (memoize self) eqn:Hm.
    + rewrite (call_enabled _ _ _ Hm).
      destruct (_memoize_key self x (st_heap st)) as [[k|e] h0] eqn:Hk;
        [|by eapply Hkey].
      destruct (_cache st !! k); [by eapply Hkey|].
      pose proof (pipeline_preserving self x h0 Hcopy Hpre Hg) as Hp.
      destruct (pipeline deepcopy self x h0) as [[[r|e] h'] evs]; simpl in *;
        (etrans; [by eapply Hkey|done]).
    + rewrite (call_disabled _ _ _ Hm).
      pose proof (pipeline_preserving self x (st_heap st) Hcopy Hpre Hg) as Hp.
      by destruct (pipeline deepcopy self x (st_heap st)) as [[r h'] evs].
Qed.

(** One call keeps every entry and adds at most one, under a key that
    was absent. *)
Lemma call_cache_step self x st :
  _cache (__call__ deepcopy self x st).2 = _cache st
  ∨ ∃ k v, _cache st !! k = None
           ∧ _cache (__call__ deepcopy self x st).2 = <[k := v]> (_cache st).
Proof.
  destruct (memoize self) eqn:Hm.
  - rewrite (call_enabled _ _ _ Hm).
    destruct (_memoize_key self x (st_heap st)) as [[k|e] h0]; [|by left].
    destruct (_cache st !! k) as [v|] eqn:Hc; [by left|].
    destruct (pipeline deepcopy self x h0) as [[[r|e] h'] evs]; [|by left].
    right. by exists k, r.
  - left. rewrite (call_disabled _ _ _ Hm).
    by destruct (pipeline deepcopy self x (st_heap st)) as [[r h'] evs].
Qed.

Lemma call_cache_subseteq self x st :
  _cache st ⊆ _cache (__call__ deepcopy self x st).2.
Proof.
  destruct (call_cache_step self x st) as [->|(k & v & Hk & ->)]; [done|].
  by apply insert_subseteq.
Qed.

Lemma call_cache_size self x st :
  size (_cache (__call__ deepcopy self x st).2) ≤ S (size (_cache st)).
Proof.
  destruct (call_cache_step self x st) as [->|(k & v & Hk & ->)]; [lia|].
  by rewrite map_size_insert_None.
Qed.

(** C7: a call keeps every cache entry with its value, and either
    leaves the cache as it was or adds one entry under a key that was
    absent: nothing is removed or overwritten, and the size grows by at
    most one.  Over any sequence of calls on the instance the cache
    only grows, by at most one entry per call. *)
Theorem cache_grows_monotonically self x st :
  (∀ k v, _cache st !! k = Some v →
          _cache (__call__ deepcopy self x st).2 !! k = Some v)
  ∧ (_cache (__call__ deepcopy self x st).2 = _cache st
     ∨ ∃ k v, _cache st !! k = None
              ∧ _cache (__call__ deepcopy self x st).2 = <[k := v]> (_cache st))
  ∧ size (_cache (__call__ deepcopy self x st).2) ≤ S (size (_cache st))
  ∧ (∀ xs st0,
       _cache st0 ⊆ _cache (call_each deepcopy self xs st0)
       ∧ size (_cache (call_each deepcopy self xs st0))
           ≤ size (_cache st0) + length xs).
Proof.
  split_and!.
  - intros k v Hk. by eapply lookup_weaken, call_cache_subseteq.
  - apply call_cache_step.
  - apply call_cache_size.
  - intros xs. induction xs as [|x0 xs IH]; intros st0; simpl.
    + split; [done|lia].
    + destruct (IH (__call__ deepcopy self x0 st0).2) as [Hsub Hsize].
      split.
      * etrans; [apply call_cache_subseteq|done].
      * pose proof (call_cache_size self x0 st0). lia.
Qed.

End Call_properties.

(** * Properties of [__repr__] *)

Local Open Scope string_scope.

Lemma string_app_assoc (s1 s2 s3 : string) : (s1 ++ s2) ++ s3 = s1 ++ s2 ++ s3.
Proof.
  induction s1 as [|a s1 IH]; [done|].
  change (String a ((s1 ++ s2) ++ s3) = String a (s1 ++ s2 ++ s3)). by f_equal.
Qed.

Lemma string_app_nil_r (s : string) : s ++ "" = s.
Proof.
  induction s as [|a s IH]; [done|].
  change (String a (s ++ "") = String a s). by f_equal.
Qed.

Section Repr_properties.

Context {K : Type} `{Countable K}.

Implicit Types (self : preprocessor K).

(** [__call__] reads [memoize], [_memoize_key], the pre-steps'
    [__call__] and the core function, and nothing else of [self]. *)
Lemma call_ext deepcopy self self' x (st : state K) :
  memoize self' = memoize self →
  _memoize_key self' = _memoize_key self →
  m_call <$> _pre self' = m_call <$> _pre self →
  _generate_mapped_data_point self' = _generate_mapped_data_point self →
  __call__ deepcopy self' x st = __call__ deepcopy self x st.
Proof.
  intros Hm Hk Hpre Hg. destruct (memoize self) eqn:Hms.
  - rewrite !call_enabled by congruence. rewrite Hk.
    destruct (_memoize_key self x (st_heap st)) as [[k|e] h0]; [|done].
    by rewrite (pipeline_ext deepcopy self' self _ _ Hpre Hg).
  - rewrite !call_disabled by congruence.
    by rewrite (pipeline_ext deepcopy self' self _ _ Hpre Hg).
Qed.

(** Python's rendering of a non-empty list, item by item. *)
Lemma concat_foldr (r : string) (rs : list string) (tail : string) :
  String.concat ", " (r :: rs) ++ tail
  = r ++ foldr (λ r' t, ", " ++ r' ++ t) tail rs.
Proof.
  revert r. induction rs as [|r2 rs IH]; intros r; [done|].
  change (String.concat ", " (r :: r2 :: rs))
    with (r ++ ", " ++ String.concat ", " (r2 :: rs)).
  rewrite !string_app_assoc, IH. done.
Qed.

Lemma list_str_cons (m : mapper) (rest : list mapper) :
  list_str (m_repr <$> (m :: rest))
  = "[" ++ m_repr m ++ foldr (λ m' t, ", " ++ m_repr m' ++ t) "]" rest.
Proof.
  unfold list_str. rewrite fmap_cons, concat_foldr. do 2 f_equal.
  induction rest as [|m2 rest IH]; [done|]. rewrite fmap_cons. cbn [foldr].
  by rewrite IH.
Qed.

(** The class binds neither [__eq__] nor [__hash__]. *)
Lemma preprocessor_class_lookup_base lambda_mapper doc call_body repr_body a :
  a ∈ ["__eq__"; "__hash__"] →
  class_lookup (preprocessor_class lambda_mapper doc call_body repr_body) a
  = class_lookup lambda_mapper a.
Proof.
  intros Ha. simpl. unfold class_metadata.
  apply elem_of_cons in Ha as [->|Ha]; [|apply list_elem_of_singleton in Ha as ->];
    by rewrite !lookup_insert_ne, lookup_singleton_ne by done.
Qed.

(** C9: the string representation is the class name, a space, the
    configured name, then [", Pre: "] and the list of pre-steps as
    Python prints a list: [[]] for none, and for one or more the
    representation of each between [[] and []], separated by [", "];
    each of the three parts occurs in it.  It is not used for equality
    or hashing: the class binds [__repr__] but neither [__eq__] nor
    [__hash__], which resolve to the base class's methods and give the
    same outcome whatever [__repr__] computes; the representation does
    not tell apart instances that differ in the memoize flag, the key
    function or the core function; and nothing in a call, keys and
    cache lookups included, depends on what it shows. *)
Theorem repr_shows_class_name_and_pre_steps self :
  __repr__ self =
    type_name self ++ " " ++ name self ++ ", Pre: " ++ list_str (m_repr <$> _pre self)
  ∧ substring_of (type_name self) (__repr__ self)
  ∧ substring_of (name self) (__repr__ self)
  ∧ substring_of (list_str (m_repr <$> _pre self)) (__repr__ self)
  ∧ (_pre self = [] →
     __repr__ self = type_name self ++ " " ++ name self ++ ", Pre: []")
  ∧ (∀ m1 m2, _pre self = [m1; m2] →
     __repr__ self =
       type_name self ++ " " ++ name self
         ++ ", Pre: [" ++ m_repr m1 ++ ", " ++ m_repr m2 ++ "]")
  ∧ (∀ self' deepcopy x (st : state K),
     memoize self' = memoize self →
     _memoize_key self' = _memoize_key self →
     m_call <$> _pre self' = m_call <$> _pre self →
     _generate_mapped_data_point self' = _generate_mapped_data_point self →
     __call__ deepcopy self' x st = __call__ deepcopy self x st)
  ∧ (∀ m, _pre self = [m] →
     __repr__ self =
       type_name self ++ " " ++ name self ++ ", Pre: [" ++ m_repr m ++ "]")
  ∧ (∀ m rest, _pre self = m :: rest →
     __repr__ self =
       type_name self ++ " " ++ name self ++ ", Pre: [" ++ m_repr m
         ++ foldr (λ m' tail, ", " ++ m_repr m' ++ tail) "]" rest)
  ∧ (∀ lambda_mapper doc call_body (load : heap → val → option (preprocessor K)) a,
     a ∈ ["__eq__"; "__hash__"] →
     class_lookup (preprocessor_class lambda_mapper doc call_body (repr_method load)) a
     = class_lookup lambda_mapper a
     ∧ ∀ repr_body args h,
         call_method (preprocessor_class lambda_mapper doc call_body repr_body) a args h
         = call_method lambda_mapper a args h)
  ∧ (∀ lambda_mapper doc call_body (load : heap → val → option (preprocessor K)) v h,
     load h v = Some self →
     call_method (preprocessor_class lambda_mapper doc call_body (repr_method load))
       "__repr__" [v] h
     = (Return (VStr (__repr__ self)), h))
  ∧ (∀ self',
     type_name self' = type_name self →
     name self' = name self →
     m_repr <$> _pre self' = m_repr <$> _pre self →
     __repr__ self' = __repr__ self).
Proof.
  split_and!.
  - done.
  - exists "", (" " ++ name self ++ ", Pre: " ++ list_str (m_repr <$> _pre self)).
    done.
  - exists (type_name self ++ " "), (", Pre: " ++ list_str (m_repr <$> _pre self)).
    unfold __repr__. by rewrite string_app_assoc.
  - exists (type_name self ++ " " ++ name self ++ ", Pre: "), "".
    unfold __repr__. by rewrite string_app_nil_r, !string_app_assoc.
  - intros Hpre. unfold __repr__. by rewrite Hpre.
  - intros m1 m2 Hpre. unfold __repr__. rewrite Hpre. simpl.
    unfold list_str. cbn [String.concat]. rewrite !string_app_assoc.
    reflexivity.
  - intros self' deepcopy x st. apply call_ext.
  - intros m Hpre. unfold __repr__. rewrite Hpre, list_str_cons. reflexivity.
  - intros m rest Hpre. unfold __repr__. rewrite Hpre, list_str_cons. reflexivity.
  - intros lambda_mapper doc call_body load a Ha. split.
    + by apply preprocessor_class_lookup_base.
    + intros repr_body args h. unfold call_method.
      by rewrite preprocessor_class_lookup_base.
  - intros lambda_mapper doc call_body load v h Hload.
    unfold call_method. simpl. rewrite lookup_insert_ne by done.
    rewrite lookup_insert_eq. simpl. by rewrite Hload.
  - intros self' Htype Hname Hpre. unfold __repr__. by rewrite Htype, Hname, Hpre.
Qed.

End Repr_properties.

(** * Properties of the marker classes *)

Lemma class_metadata_other qualname doc a :
  a ∉ metadata_names → class_metadata qualname doc !! a = None.
Proof.
  unfold metadata_names, class_metadata. rewrite !not_elem_of_cons.
  intros (? & ? & ? & _). by rewrite !lookup_insert_ne, lookup_singleton_ne.
Qed.

Lemma class_metadata_no_method qualname doc a f :
  class_metadata qualname doc !! a ≠ Some (AMethod f).
Proof.
  unfold class_metadata. intros Hl.
  repeat (apply lookup_insert_Some in Hl as [[_ [=]]|[_ Hl]]).
  by apply lookup_singleton_Some in Hl as [_ [=]].
Qed.

(** C10: [Preprocessor] and [LambdaPreprocessor] bind no method of
    their own, and every attribute other than the metadata a class
    statement sets resolves on them to what it resolves to on [Mapper]
    and [LambdaMapper]: calling any method on them runs the base class's
    method, with the same outcome and heap.  They differ from their
    bases by their name (and docstring) only. *)
Theorem marker_classes_add_no_behavior (Mapper LambdaMapper : pyclass) (a : string) :
  a ∉ metadata_names →
  class_lookup (Preprocessor Mapper) a = class_lookup Mapper a
  ∧ class_lookup (LambdaPreprocessor LambdaMapper) a = class_lookup LambdaMapper a
  ∧ (∀ args h, call_method (Preprocessor Mapper) a args h = call_method Mapper a args h)
  ∧ (∀ args h, call_method (LambdaPreprocessor LambdaMapper) a args h
               = call_method LambdaMapper a args h)
  ∧ (∀ b f, class_lookup (Preprocessor Mapper) b = Some (AMethod f) →
            class_lookup Mapper b = Some (AMethod f))
  ∧ (∀ b f, class_lookup (LambdaPreprocessor LambdaMapper) b = Some (AMethod f) →
            class_lookup LambdaMapper b = Some (AMethod f))
  ∧ class_name (Preprocessor Mapper) = "Preprocessor"
  ∧ class_name (LambdaPreprocessor LambdaMapper) = "LambdaPreprocessor".
Proof.
  intros Ha.
  assert (H1 : class_lookup (Preprocessor Mapper) a = class_lookup Mapper a)
    by (simpl; by rewrite class_metadata_other).
  assert (H2 : class_lookup (LambdaPreprocessor LambdaMapper) a
               = class_lookup LambdaMapper a)
    by (simpl; by rewrite class_metadata_other).
  split_and!; try done.
  - intros args h. unfold call_method. by rewrite H1.
  - intros args h. unfold call_method. by rewrite H2.
  - intros b f. simpl.
    destruct (class_metadata "Preprocessor" _ !! b) eqn:Hb; [|done].
    intros [= ->]. by apply class_metadata_no_method in Hb.
  - intros b f. simpl.
    destruct (class_metadata "LambdaPreprocessor" _ !! b) eqn:Hb; [|done].
    intros [= ->]. by apply class_metadata_no_method in Hb.
Qed.

(** * Copy isolation *)

Local Close Scope string_scope.

Section Deepcopy_properties.

Variable copier_of : string → copier.
Variable limit : nat.
Variable D : gset loc.

Implicit Types (h : heap) (memo : gmap loc val) (v x y : val) (l : loc).











End Deepcopy_properties.

(** When every class is rebuilt the deep copy only allocates: it
    changes no existing object, on any heap. *)
Lemma copy_items_preserving rec items memo (h : heap) :
  (∀ x memo0 (h0 : heap), h0 ⊆ (rec x memo0 h0).2) →
  h ⊆ (copy_items rec items memo h).2.
Proof.
  intros Hrec. revert memo h.
  induction items as [|[a v] rest IH]; intros memo h; simpl; [done|].
  pose proof (Hrec v memo h) as Hv.
  destruct (rec v memo h) as [[[v' memo1]|e] h1]; simpl in *; [|done].
  pose proof (IH memo1 h1) as Hrest.
  destruct (copy_items rec rest memo1 h1) as [[[d memo2]|e] h2]; simpl in *;
    by etrans.
Qed.

Lemma deepcopy_rec_preserving depth x memo (h : heap) :
  h ⊆ (deepcopy_rec (λ _, Rebuild) depth x memo h).2.
Proof.
  revert x memo h. induction depth as [|depth IH]; intros x memo h; simpl; [done|].
  destruct x as [| | |l]; try done.
  destruct (memo !! l); [done|]. destruct (h !! l) as [o|]; [|done].
  unfold alloc. set (l' := fresh (dom h)).
  assert (Hl' : h !! l' = None) by apply not_elem_of_dom, is_fresh.
  pose proof (copy_items_preserving (deepcopy_rec (λ _, Rebuild) depth)
                (map_to_list (o_attrs o)) (<[l := VRef l']> memo)
                (<[l' := Obj (o_class o) ∅]> h) IH) as Hitems.
  destruct (copy_items _ _ _ _) as [[[d memo2]|e] h2]; simpl in *.
  - apply insert_subseteq_r; [done|]. etrans; [|done]. by apply insert_subseteq.
  - etrans; [|done]. by apply insert_subseteq.
Qed.

Lemma py_deepcopy_preserving limit : preserving (py_deepcopy (λ _, Rebuild) limit).
Proof.
  intros x h r h'. unfold py_deepcopy.
  pose proof (deepcopy_rec_preserving limit x ∅ h) as Hrec.
  destruct (deepcopy_rec _ _ _ _ _) as [[[y memo]|e] h0]; by intros [= _ <-].
Qed.

(** * Copy isolation for objects copied by reconstruction *)

Section Isolation.

Context {K : Type} `{Countable K}.
Variable copier_of : string → copier.
Variable limit : nat.
Variable D : gset loc.

Implicit Types (h : heap) (v x : val) (self : preprocessor K) (st : state K).




End Isolation.

(** ** In-place changes through the argument are confined *)

Lemma unchanged_on_setattr D (h : heap) l a w :
  l ∉ D → unchanged_on D h (setattr h l a w).
Proof.
  intros Hl l0 Hl0. unfold setattr. destruct (h !! l); [|done].
  apply lookup_insert_ne. congruence.
Qed.

(** Storing an atom in an attribute gives access to nothing new. *)
Lemma reachable_setattr_atom (h : heap) l a w v l' :
  (∀ l0, w ≠ VRef l0) →
  reachable (setattr h l a w) v l' → reachable h v l'.
Proof.
  intros Hw Hreach.
  induction Hreach as [l1|l1 o1 a1 v1 l2 Ho1 Ha1 Hreach IH]; [constructor|].
  unfold setattr in Ho1. destruct (h !! l) as [o|] eqn:Ho.
  - destruct (decide (l = l1)) as [->|Hne].
    + rewrite lookup_insert_eq in Ho1. injection Ho1 as <-. simpl in Ha1.
      destruct (decide (a = a1)) as [->|Hna].
      * rewrite lookup_insert_eq in Ha1. injection Ha1 as <-.
        inversion IH; subst; by edestruct Hw.
      * rewrite lookup_insert_ne in Ha1 by done. by econstructor.
    + rewrite lookup_insert_ne in Ho1 by done. by econstructor.
  - by econstructor.
Qed.

Lemma confined_setattr_atom D (h : heap) l a w v :
  (∀ l0, w ≠ VRef l0) →
  reachable h v l →
  separate D h v →
  unchanged_on D h (setattr h l a w) ∧ separate D (setattr h l a w) v.
Proof.
  intros Hw Hl Hsep. split.
  - apply unchanged_on_setattr. by apply Hsep.
  - intros l0 Hl0. apply Hsep. by eapply reachable_setattr_atom.
Qed.

Lemma confined_combine_text D : confined D combine_text.
Proof.
  intros v h r h' Hcall Hsep. unfold combine_text in Hcall.
  destruct v as [| | |l];
    try (injection Hcall as <- <-; split; [by intros ?|done]).
  destruct (getattr h (VRef l) "title") as [[| |t|]|];
    try (injection Hcall as <- <-; split; [by intros ?|done]).
  destruct (getattr h (VRef l) "body") as [[| |b|]|];
    try (injection Hcall as <- <-; split; [by intros ?|done]).
  injection Hcall as <- <-.
  destruct (confined_setattr_atom D h l "article" (VStr (t ++ " " ++ b)) (VRef l))
    as [Hun Hsep']; [done|constructor|done|].
  split; [done|]. by intros v' [= <-].
Qed.




(** The order of the pre-steps shows in the result. *)
Example pre_step_order_matters :
  let x := VRef 1%positive in
  let st := initial_state article_heap in
  let out12 := __call__ example_deepcopy
                 (example_preprocessor false [exclaim_mapper; combine_mapper] keep) x st in
  let out21 := __call__ example_deepcopy
                 (example_preprocessor false [combine_mapper; exclaim_mapper] keep) x st in
  getattr (st_heap out12.2) (VRef 2%positive) "article" = Some (VStr "A! B")
  ∧ getattr (st_heap out21.2) (VRef 2%positive) "article" = Some (VStr "A B").
Proof. vm_compute. repeat split. Qed.

(** The docstring's scenario on a plain object: the result is a new
    object with [article = "A B"], and the input has no [article]. *)
Example combine_text_leaves_input_alone :
  let self := example_preprocessor false [] combine_text in
  let x := VRef 1%positive in
  let st := initial_state article_heap in
  let out := __call__ example_deepcopy self x st in
  out.1 = Return (VRef 2%positive)
  ∧ getattr (st_heap out.2) (VRef 2%positive) "article" = Some (VStr "A B")
  ∧ getattr (st_heap out.2) x "article" = None
  ∧ getattr (st_heap out.2) x "title" = Some (VStr "A")
  ∧ getattr (st_heap out.2) x "body" = Some (VStr "B").
Proof. vm_compute. repeat split. Qed.

(** An object held in an attribute of a plain object is copied too: the
    step's in-place change lands on the copy. *)
Example plain_row_is_isolated :
  let self := example_preprocessor false [] mark_tokens in
  let x := VRef 1%positive in
  let st := initial_state (row_heap "SimpleNamespace") in
  let out := __call__ example_deepcopy self x st in
  out.1 = Return (VRef 3%positive)
  ∧ getattr (st_heap out.2) x "tokens" = Some (VRef 2%positive)
  ∧ getattr (st_heap out.2) (VRef 2%positive) "n" = Some (VInt 0).
Proof. vm_compute. repeat split. Qed.

(** A function held in an attribute is not copied either:
    [copy.deepcopy] returns functions as they are, so a change to an
    attribute of the function lands on the caller's function. *)
Example function_attribute_is_shared :
  let self := example_preprocessor false [] mark_tokens in
  let x := VRef 1%positive in
  let st := initial_state callback_row_heap in
  let out := __call__ example_deepcopy self x st in
  out.1 = Return (VRef 3%positive)
  ∧ getattr (st_heap out.2) (VRef 3%positive) "tokens" = Some (VRef 2%positive)
  ∧ getattr (st_heap st) (VRef 2%positive) "n" = Some (VInt 0)
  ∧ getattr (st_heap out.2) (VRef 2%positive) "n" = Some (VInt 1).
Proof. vm_compute. repeat split. Qed.

(** C3, at an input on which it fails: [x] is an object whose class
    defines [__deepcopy__] as a copy of the container, holding another
    object in [x.tokens]; the core function changes [x_mapped.tokens] in
    place.  The call returns a new object, but [copy.deepcopy] has left
    [tokens] shared, so after the call the caller's [x.tokens.n] is [1]
    where it was [0]: the input has been mutated. *)
Theorem container_copy_lets_call_mutate_input :
  let self := example_preprocessor false [] mark_tokens in
  let x := VRef 1%positive in
  let st := initial_state (row_heap "Series") in
  let out := __call__ example_deepcopy self x st in
  out.1 = Return (VRef 3%positive)
  ∧ getattr (st_heap st) x "tokens" = Some (VRef 2%positive)
  ∧ getattr (st_heap out.2) x "tokens" = Some (VRef 2%positive)
  ∧ getattr (st_heap st) (VRef 2%positive) "n" = Some (VInt 0)
  ∧ getattr (st_heap out.2) (VRef 2%positive) "n" = Some (VInt 1).
Proof. vm_compute. repeat split. Qed.

(** * Further properties of [__call__], [__repr__] and the classes *)

Section More_call_properties.

Context {K : Type} `{Countable K}.
Variable deepcopy : callable val.

Implicit Types (self : preprocessor K) (st : state K) (x v : val) (k : K).

(** The loop over two lists of pre-steps, one after the other. *)
Lemma pre_chain_app pre1 pre2 i v (h : heap) :
  pre_chain (pre1 ++ pre2) i v h =
    match pre_chain pre1 i v h with
    | (Return v', h', evs) =>
        let '(r, h'', evs') := pre_chain pre2 (i + length pre1) v' h' in
        (r, h'', evs ++ evs')
    | (Raise e, h', evs) => (Raise e, h', evs)
    end.
Proof.
  revert i v h. induction pre1 as [|m rest IH]; intros i v h; simpl.
  - rewrite Nat.add_0_r. by destruct (pre_chain pre2 i v h) as [[r h''] evs'].
  - destruct (m_call m v h) as [[v1|e] h1]; [|done].
    rewrite IH, Nat.add_succ_r. simpl.
    destruct (pre_chain rest (S i) v1 h1) as [[[v2|e] h2] evs2]; [|done].
    by destruct (pre_chain pre2 (S (i + length rest)) v2 h2) as [[r h''] evs'].
Qed.

(** X1: the loop over the pre-steps composes: running the list
    [pre1 ++ pre2] is running [pre1] and then, if it returned, [pre2] on
    what it returned, on the state it left. *)
Theorem run_pre_app pre1 pre2 i v st :
  run_pre (pre1 ++ pre2) i v st =
    bind (run_pre pre1 i v) (run_pre pre2 (i + length pre1)) st.
Proof.
  revert i v st. induction pre1 as [|m rest IH]; intros i v st; simpl.
  - unfold bind, ret. by rewrite Nat.add_0_r.
  - rewrite Nat.add_succ_r. unfold bind.
    destruct (invoke (CallPre i v) (m_call m v) st) as [[v1|e] st1]; [|done].
    by rewrite IH.
Qed.

(** Past the lookup, the calls logged are the key call, when
    memoization is enabled, and then those of [pipeline]. *)
Lemma call_from_copy_log self x st h0 :
  reaches_copy self x st h0 →
  st_log (__call__ deepcopy self x st).2 =
    st_log st ++ (if memoize self then [CallKey x] else [])
      ++ (pipeline deepcopy self x h0).2.
Proof.
  intros [[Hm ->]|[Hm (k & Hk & Hc)]].
  - rewrite (call_disabled _ _ _ _ Hm), Hm.
    by destruct (pipeline deepcopy self x (st_heap st)) as [[r h'] evs].
  - rewrite (call_absent _ _ _ _ _ _ Hm Hk Hc), Hm.
    by destruct (pipeline deepcopy self x h0) as [[[r|e] h'] evs].
Qed.

(** The first call a non-empty loop makes. *)
Lemma pre_chain_log_head m rest i v (h : heap) :
  ∃ evs, (pre_chain (m :: rest) i v h).2 = CallPre i v :: evs.
Proof.
  simpl. destruct (m_call m v h) as [[v1|e] h1]; [|by eexists].
  destruct (pre_chain rest (S i) v1 h1) as [[r h2] evs]. by eexists.
Qed.

(** X7: [None] is not special inside the chain: when a pre-step returns
    [None], the call goes on and the next pre-step is called with [None];
    after the last pre-step, the core function is called with [None] and
    the call's outcome is its outcome. *)
Theorem none_from_pre_step_is_passed_on self x st h0 c h1 before m after vj hj evs h2 :
  reaches_copy self x st h0 →
  deepcopy x h0 = (Return c, h1) →
  _pre self = before ++ m :: after →
  pre_chain before 0 c h1 = (Return vj, hj, evs) →
  m_call m vj hj = (Return VNone, h2) →
  match after with
  | [] =>
      CallGen VNone ∈ st_log (__call__ deepcopy self x st).2
      ∧ (__call__ deepcopy self x st).1
        = (_generate_mapped_data_point self VNone h2).1
  | _ :: _ =>
      CallPre (S (length before)) VNone ∈ st_log (__call__ deepcopy self x st).2
  end.
Proof.
  intros Hreach Hc Hpre Hbefore Hm.
  rewrite (call_from_copy_log _ _ _ _ Hreach).
  assert (Hchain : pre_chain (_pre self) 0 c h1 =
            let '(r, h'', evs') := pre_chain after (S (length before)) VNone h2 in
            (r, h'', evs ++ CallPre (length before) vj :: evs')).
  { rewrite Hpre, pre_chain_app, Hbefore. simpl. rewrite Hm.
    by destruct (pre_chain after (S (length before)) VNone h2) as [[r h''] evs']. }
  destruct after as [|m' rest].
  - simpl in Hchain. split.
    + unfold pipeline. rewrite Hc, Hchain.
      destruct (_generate_mapped_data_point self VNone h2) as [r h3]. simpl.
      rewrite !elem_of_app, elem_of_cons, !elem_of_app. right. right. right. right.
      apply list_elem_of_singleton. done.
    + destruct (pipeline deepcopy self x h0) as [[r h'] evs0] eqn:Hp.
      destruct (call_from_copy _ _ _ _ _ _ _ _ Hreach Hp) as (-> & _).
      revert Hp. unfold pipeline. rewrite Hc, Hchain.
      destruct (_generate_mapped_data_point self VNone h2) as [r3 h3].
      by intros [= <- _ _].
  - destruct (pre_chain_log_head m' rest (S (length before)) VNone h2) as [evs' Hhead].
    unfold pipeline. rewrite Hc, Hchain.
    destruct (pre_chain (m' :: rest) (S (length before)) VNone h2)
      as [[[b|e] h''] evs''] eqn:Hrest; simpl in Hhead; subst evs''.
    + destruct (_generate_mapped_data_point self b h'') as [r3 h3]. simpl.
      rewrite !elem_of_app, elem_of_cons, !elem_of_app, !elem_of_cons.
      right. right. right. left. right. right. by left.
    + simpl. rewrite !elem_of_app, elem_of_cons, !elem_of_app, !elem_of_cons.
      right. right. right. right. right. by left.
Qed.

(** X2: when a pre-step raises, the call ends there: the heap is the
    one the raising step left (what the earlier steps did is not undone),
    and the last call logged is the raising one, so no later pre-step and
    no core function has run. *)
Theorem raising_pre_step_ends_the_call self x st h0 c h1 before m after vj hj evs e h2 :
  reaches_copy self x st h0 →
  deepcopy x h0 = (Return c, h1) →
  _pre self = before ++ m :: after →
  pre_chain before 0 c h1 = (Return vj, hj, evs) →
  m_call m vj hj = (Raise e, h2) →
  st_heap (__call__ deepcopy self x st).2 = h2
  ∧ st_log (__call__ deepcopy self x st).2 =
      st_log st ++ (if memoize self then [CallKey x] else [])
        ++ CallDeepcopy x :: evs ++ [CallPre (length before) vj].
Proof.
  intros Hreach Hc Hpre Hbefore Hm.
  assert (Hp : pipeline deepcopy self x h0 =
               (Raise e, h2, CallDeepcopy x :: evs ++ [CallPre (0 + length before) vj])).
  { unfold pipeline. rewrite Hc, Hpre.
    by rewrite (pre_chain_raise _ _ after _ _ _ _ _ _ _ _ Hbefore Hm). }
  split.
  - by destruct (call_from_copy _ _ _ _ _ _ _ _ Hreach Hp) as (_ & ? & _).
  - by rewrite (call_from_copy_log _ _ _ _ Hreach), Hp.
Qed.

(** X3: failures are not memoized: after a memoized call on an absent
    key has raised, the key is still absent, and a repeated call with the
    same key runs the deep copy again. *)
Theorem failed_call_is_not_memoized self x st k h0 h0' e :
  memoize self = true →
  _memoize_key self x (st_heap st) = (Return k, h0) →
  _cache st !! k = None →
  (__call__ deepcopy self x st).1 = Raise e →
  _memoize_key self x (st_heap (__call__ deepcopy self x st).2) = (Return k, h0') →
  _cache (__call__ deepcopy self x st).2 !! k = None
  ∧ ∃ evs : list event,
      st_log (__call__ deepcopy self x (__call__ deepcopy self x st).2).2 =
        st_log (__call__ deepcopy self x st).2
          ++ CallKey x :: CallDeepcopy x :: evs.
Proof.
  intros Hm Hk Hc Hraise Hk'.
  assert (Hc' : _cache (__call__ deepcopy self x st).2 !! k = None)
    by (by rewrite (call_raise_cache _ _ _ _ _ Hraise)).
  split; [done|].
  rewrite (call_from_copy_log _ _ _ h0'), Hm by (right; eauto).
  destruct (pipeline_log_head deepcopy self x h0') as [evs ->]. by exists evs.
Qed.

(** X6: a memoized call that returns [v] leaves the cache equal to the
    old cache with [v] under the key of [x] (the same cache on a hit),
    and in every case the only key it can add is the key of [x]. *)
Theorem memoized_call_stores_result_under_key self x st k h0 :
  memoize self = true →
  _memoize_key self x (st_heap st) = (Return k, h0) →
  (∀ v, (__call__ deepcopy self x st).1 = Return v →
        _cache (__call__ deepcopy self x st).2 = <[k := v]> (_cache st))
  ∧ dom (_cache (__call__ deepcopy self x st).2) ⊆ dom (_cache st) ∪ {[k]}.
Proof.
  intros Hm Hk. rewrite (call_enabled _ _ _ _ Hm), Hk.
  destruct (_cache st !! k) as [v0|] eqn:Hc.
  - split; [|apply union_subseteq_l]. intros v [= <-]. simpl. by rewrite insert_id.
  - destruct (pipeline deepcopy self x h0) as [[[r|e] h'] evs]; simpl.
    + split; [by intros v [= <-]|]. rewrite dom_insert_L. apply union_least; [apply union_subseteq_r|apply union_subseteq_l].
    + split; [done|apply union_subseteq_l].
Qed.

End More_call_properties.

Section Batch_properties.

Context {K : Type} `{Countable K}.
Variable deepcopy : callable val.

Implicit Types (self : preprocessor K) (st : state K) (x v : val) (k : K).

Lemma call_all_state self xs st :
  (call_all deepcopy self xs st).2 = call_each deepcopy self xs st.
Proof.
  revert st. induction xs as [|x rest IH]; intros st; simpl; [done|].
  destruct (__call__ deepcopy self x st) as [r st1]. simpl.
  specialize (IH st1). by destruct (call_all deepcopy self rest st1) as [rs st2].
Qed.

Lemma pre_chain_pure pre (ps : list (val → val)) i v (h : heap) :
  m_call <$> pre = pure_callable <$> ps →
  (pre_chain pre i v h).1 = (Return (fold_left (λ v p, p v) ps v), h).
Proof.
  revert ps i v h. induction pre as [|m rest IH]; intros [|p ps] i v h; try done.
  simpl. intros [= Hm Hrest]. rewrite Hm. unfold pure_callable at 1.
  specialize (IH ps (S i) (p v) h Hrest).
  by destruct (pre_chain rest (S i) (p v) h) as [[r h'] evs].
Qed.

Lemma pipeline_pure self copy ps g x (h : heap) :
  deepcopy x h = (Return (copy x), h) →
  m_call <$> _pre self = pure_callable <$> ps →
  _generate_mapped_data_point self = pure_callable g →
  (pipeline deepcopy self x h).1 = (Return (pure_pipeline copy ps g x), h).
Proof.
  intros Hcopy Hpre Hg. unfold pipeline. rewrite Hcopy.
  pose proof (pre_chain_pure (_pre self) ps 0 (copy x) h Hpre) as Hchain.
  destruct (pre_chain (_pre self) 0 (copy x) h) as [[r h'] evs].
  simpl in Hchain. injection Hchain as -> ->. by rewrite Hg.
Qed.

(** One call of a preprocessor made of functions without effects. *)
Lemma memoized_call_pure self copy ps g (kf : val → K) x st :
  (∀ h, deepcopy x h = (Return (copy x), h)) →
  m_call <$> _pre self = pure_callable <$> ps →
  _generate_mapped_data_point self = pure_callable g →
  _memoize_key self = pure_callable kf →
  (∀ x1 x2, kf x1 = kf x2 → pure_pipeline copy ps g x1 = pure_pipeline copy ps g x2) →
  cache_consistent kf (pure_pipeline copy ps g) (_cache st) →
  (__call__ deepcopy self x st).1 = Return (pure_pipeline copy ps g x)
  ∧ cache_consistent kf (pure_pipeline copy ps g) (_cache (__call__ deepcopy self x st).2).
Proof.
  intros Hcopy Hpre Hg Hkey Hdet Hcons.
  destruct (memoize self) eqn:Hm.
  - rewrite (call_enabled _ _ _ _ Hm), Hkey. unfold pure_callable.
    destruct (_cache st !! kf x) as [v|] eqn:Hc.
    + simpl. split; [|done]. f_equal. symmetry. by eapply Hcons.
    + pose proof (pipeline_pure self copy ps g x (st_heap st) (Hcopy _) Hpre Hg) as Hp.
      destruct (pipeline deepcopy self x (st_heap st)) as [[r h'] evs].
      simpl in Hp. injection Hp as -> ->. simpl. split; [done|].
      intros k v. destruct (decide (kf x = k)) as [<-|Hne].
      * rewrite lookup_insert_eq. intros [= <-] x' Hx'. by apply Hdet.
      * rewrite lookup_insert_ne by done. apply Hcons.
  - rewrite (call_disabled _ _ _ _ Hm).
    pose proof (pipeline_pure self copy ps g x (st_heap st) (Hcopy _) Hpre Hg) as Hp.
    destruct (pipeline deepcopy self x (st_heap st)) as [[r h'] evs].
    simpl in Hp. by injection Hp as -> ->.
Qed.

(** X4: memoization is transparent where nothing has effects: when on
    the data points of a batch the deep copy returns a value that
    depends on the data point alone and leaves the heap as it is (as
    [copy.deepcopy] does on atoms), the pre-steps, the core function and
    the key function are functions of their argument alone, and equal
    keys mean equal results, then from a cache consistent with the
    pipeline (the empty one, say) every call of the batch returns what
    the pipeline computes for its data point, memoized or not, and the
    cache stays consistent. *)
Theorem memoization_is_transparent self copy ps g (kf : val → K) xs st :
  (∀ x h, x ∈ xs → deepcopy x h = (Return (copy x), h)) →
  m_call <$> _pre self = pure_callable <$> ps →
  _generate_mapped_data_point self = pure_callable g →
  _memoize_key self = pure_callable kf →
  (∀ x1 x2, kf x1 = kf x2 → pure_pipeline copy ps g x1 = pure_pipeline copy ps g x2) →
  cache_consistent kf (pure_pipeline copy ps g) (_cache st) →
  (call_all deepcopy self xs st).1 = (λ x, Return (pure_pipeline copy ps g x)) <$> xs
  ∧ cache_consistent kf (pure_pipeline copy ps g) (_cache (call_all deepcopy self xs st).2).
Proof.
  intros Hcopy Hpre Hg Hkey Hdet. revert st.
  induction xs as [|x rest IH]; intros st Hcons; simpl; [done|].
  assert (Hx : ∀ h, deepcopy x h = (Return (copy x), h))
    by (intros h; apply Hcopy; by left).
  assert (Hrest : ∀ x' h, x' ∈ rest → deepcopy x' h = (Return (copy x'), h))
    by (intros x' h Hin; apply Hcopy; by right).
  destruct (memoized_call_pure self copy ps g kf x st Hx Hpre Hg Hkey Hdet Hcons)
    as [Hr Hcons1].
  destruct (__call__ deepcopy self x st) as [r st1]. simpl in *. subst r.
  destruct (IH Hrest st1 Hcons1) as [Hrs Hcons2].
  destruct (call_all deepcopy self rest st1) as [rs st2]. simpl in *.
  by rewrite Hrs.
Qed.

(** After a batch, each call that returned has left its value in the
    cache under the key of its data point. *)
Lemma call_all_cached self (kf : val → K) xs st :
  memoize self = true →
  _memoize_key self = pure_callable kf →
  _cache st ⊆ _cache (call_all deepcopy self xs st).2
  ∧ Forall2 (λ x r, ∀ v, r = Return v →
               _cache (call_all deepcopy self xs st).2 !! kf x = Some v)
      xs (call_all deepcopy self xs st).1.
Proof.
  intros Hm Hkey. revert st. induction xs as [|x rest IH]; intros st; simpl.
  - split; [done|constructor].
  - destruct (__call__ deepcopy self x st) as [r st1] eqn:Hcall.
    destruct (IH st1) as [Hsub Hall].
    destruct (call_all deepcopy self rest st1) as [rs st2]. simpl in *.
    split.
    + etrans; [|done].
      pose proof (call_cache_subseteq deepcopy self x st) as Hstep.
      by rewrite Hcall in Hstep.
    + constructor; [|done]. intros v ->.
      eapply lookup_weaken; [|done].
      eapply (call_returns_cached deepcopy self x st (kf x) (st_heap st)); [done| |done].
      by rewrite Hkey.
Qed.

(** A batch whose keys are all cached is a batch of hits. *)
Lemma call_all_hits self (kf : val → K) xs rs st :
  memoize self = true →
  _memoize_key self = pure_callable kf →
  Forall2 (λ x r, ∃ v, r = Return v ∧ _cache st !! kf x = Some v) xs rs →
  call_all deepcopy self xs st =
    (rs, State (st_heap st) (_cache st) (st_log st ++ (CallKey <$> xs))).
Proof.
  intros Hm Hkey. revert rs st.
  induction xs as [|x rest IH]; intros rs st Hall.
  - apply Forall2_nil_inv_l in Hall as ->. simpl.
    destruct st; simpl. by rewrite app_nil_r.
  - apply Forall2_cons_inv_l in Hall as (r & rs' & (v & -> & Hc) & Hrest & ->).
    simpl.
    rewrite (call_hit deepcopy self x st (kf x) v (st_heap st) Hm)
      by (by rewrite ?Hkey).
    rewrite (IH rs' (State (st_heap st) (_cache st) (st_log st ++ [CallKey x])) Hrest).
    simpl. by rewrite <- app_assoc.
Qed.

(** X5: with memoization enabled and a key function that is a function
    of the data point alone, a second pass over a batch whose calls all
    returned is made of hits only: it returns the same values, calls the
    key function once per data point and nothing else, and leaves the
    heap and the cache as they were. *)
Theorem second_pass_is_all_hits self (kf : val → K) xs st :
  memoize self = true →
  _memoize_key self = pure_callable kf →
  Forall returned (call_all deepcopy self xs st).1 →
  call_all deepcopy self xs (call_all deepcopy self xs st).2 =
    ((call_all deepcopy self xs st).1,
     State (st_heap (call_all deepcopy self xs st).2)
           (_cache (call_all deepcopy self xs st).2)
           (st_log (call_all deepcopy self xs st).2 ++ (CallKey <$> xs))).
Proof.
  intros Hm Hkey Hret.
  apply (call_all_hits self kf); [done..|].
  destruct (call_all_cached self kf xs st Hm Hkey) as [_ Hall].
  revert Hret Hall. generalize (call_all deepcopy self xs st).1.
  generalize (_cache (call_all deepcopy self xs st).2). intros c rs Hret Hall.
  induction Hall as [|x r xs' rs' Hx _ IH]; [constructor|].
  apply Forall_cons in Hret as [Hr Hrs]. constructor; [|by apply IH].
  destruct r as [v|e]; [|done]. exists v. split; [done|]. by apply Hx.
Qed.

End Batch_properties.

Local Open Scope string_scope.

Lemma substring_of_refl s : substring_of s s.
Proof. exists "", "". by rewrite string_app_nil_r. Qed.

Lemma substring_of_app_l s t a : substring_of s t → substring_of s (a ++ t).
Proof.
  intros (before & after & ->). exists (a ++ before), after.
  by rewrite string_app_assoc.
Qed.

Lemma substring_of_app_r s t b : substring_of s t → substring_of s (t ++ b).
Proof.
  intros (before & after & ->). exists before, (after ++ b).
  by rewrite !string_app_assoc.
Qed.

(** Each item of a joined list occurs in the result. *)
Lemma substring_of_concat sep s items :
  s ∈ items → substring_of s (String.concat sep items).
Proof.
  induction items as [|t rest IH]; [by intros ?%elem_of_nil|].
  intros Hin. apply elem_of_cons in Hin as [Heq|Hin].
  - subst t. destruct rest as [|t' rest]; [apply substring_of_refl|].
    change (substring_of s (s ++ sep ++ String.concat sep (t' :: rest))).
    apply substring_of_app_r, substring_of_refl.
  - destruct rest as [|t' rest]; [by apply elem_of_nil in Hin|].
    change (substring_of s (t ++ sep ++ String.concat sep (t' :: rest))).
    by apply substring_of_app_l, substring_of_app_l, IH.
Qed.

(** X8: the representation of every pre-step occurs in the
    representation of the preprocessor. *)
Theorem repr_shows_each_pre_step {K} (self : preprocessor K) (m : mapper) :
  m ∈ _pre self → substring_of (m_repr m) (__repr__ self).
Proof.
  intros Hin. unfold __repr__, list_str.
  do 5 apply substring_of_app_l. apply substring_of_app_r.
  by apply substring_of_concat, list_elem_of_fmap_2.
Qed.

Local Close Scope string_scope.


(** * The theorems at concrete inputs *)

Lemma cached_value_returned_immediately_witness :
  __call__ example_deepcopy (example_preprocessor true [] combine_text)
    (VRef 1%positive) none_cached_state
  = (Return VNone,
     State article_heap {[ "A"%string := VNone ]} [CallKey (VRef 1%positive)]).
Proof.
  destruct (cached_value_returned_immediately example_deepcopy
              (example_preprocessor true [] combine_text) (VRef 1%positive)
              none_cached_state "A"%string article_heap) as (_ & W & _).
  - reflexivity.
  - vm_compute. reflexivity.
  - apply W. vm_compute. reflexivity.
Defined.

Lemma pre_steps_then_core_in_order_witness :
  let self := example_preprocessor false [exclaim_mapper; combine_mapper] keep in
  let out := __call__ example_deepcopy self (VRef 1%positive) (initial_state article_heap) in
  out.1 = Return (VRef 2%positive)
  ∧ getattr (st_heap out.2) (VRef 2%positive) "article" = Some (VStr "A! B").
Proof.
  intros self out.
  pose (x := VRef 1%positive). pose (c := VRef 2%positive).
  pose (h1 := (example_deepcopy x article_heap).2).
  pose (h2 := (exclaim_title c h1).2).
  pose (h3 := (combine_text c h2).2).
  destruct (pre_steps_then_core_in_order example_deepcopy self x
              (initial_state article_heap) article_heap) as (W & _).
  - left. split; reflexivity.
  - destruct (W exclaim_mapper combine_mapper c c c c h1 h2 h3 h3)
      as (Hr & Hh & _).
    + reflexivity.
    + vm_compute. reflexivity.
    + vm_compute. reflexivity.
    + vm_compute. reflexivity.
    + vm_compute. reflexivity.
    + split; [exact Hr|].
      change (getattr (st_heap (__call__ example_deepcopy self x
                (initial_state article_heap)).2) c "article" = Some (VStr "A! B")).
      rewrite Hh. vm_compute. reflexivity.
Defined.

Lemma exceptions_propagate_cache_unchanged_witness :
  let self := example_preprocessor true [failing_mapper] combine_text in
  let out := __call__ example_deepcopy self (VRef 1%positive) (initial_state article_heap) in
  out.1 = Raise (Exn "ValueError" "bad input") ∧ _cache out.2 = ∅.
Proof.
  intros self out.
  pose (x := VRef 1%positive). pose (c := VRef 2%positive).
  pose (h1 := (example_deepcopy x article_heap).2).
  destruct (exceptions_propagate_cache_unchanged example_deepcopy self x
              (initial_state article_heap)) as (_ & W & _).
  destruct (W article_heap) as (_ & W2 & _).
  - right. split; [reflexivity|]. exists "A"%string. split; vm_compute; reflexivity.
  - apply (W2 c h1 [] failing_mapper [] c h1 [] (Exn "ValueError" "bad input") h1).
    + vm_compute. reflexivity.
    + reflexivity.
    + reflexivity.
    + reflexivity.
Defined.

Lemma second_call_returns_stored_value_witness :
  let self := example_preprocessor true [] combine_text in
  let x := VRef 1%positive in
  let st1 := (__call__ example_deepcopy self x (initial_state article_heap)).2 in
  _cache st1 !! "A"%string = Some (VRef 2%positive)
  ∧ __call__ example_deepcopy self x st1 =
      (Return (VRef 2%positive),
       State (st_heap st1) (_cache st1) (st_log st1 ++ [CallKey x])).
Proof.
  intros self x st1.
  apply (second_call_returns_stored_value example_deepcopy self x
           (initial_state article_heap) (VRef 2%positive) st1 "A"%string
           article_heap (st_heap st1)).
  - reflexivity.
  - vm_compute. reflexivity.
  - vm_compute. reflexivity.
  - vm_compute. reflexivity.
Defined.

Lemma equal_keys_share_cached_value_witness :
  let self := example_preprocessor true [] combine_text in
  let st1 := (__call__ example_deepcopy self (VRef 1%positive) (initial_state two_rows_heap)).2 in
  __call__ example_deepcopy self (VRef 2%positive) st1 =
    (Return (VRef 3%positive),
     State (st_heap st1) (_cache st1) (st_log st1 ++ [CallKey (VRef 2%positive)])).
Proof.
  intros self st1.
  apply (equal_keys_share_cached_value example_deepcopy self (VRef 1%positive)
           (VRef 2%positive) (initial_state two_rows_heap) (VRef 3%positive) st1
           "A"%string two_rows_heap (st_heap st1)).
  - reflexivity.
  - vm_compute. reflexivity.
  - vm_compute. reflexivity.
  - vm_compute. reflexivity.
Defined.

Lemma disabled_leaves_cache_alone_witness :
  let self := example_preprocessor false [] combine_text in
  _cache (__call__ example_deepcopy self (VRef 1%positive) none_cached_state).2
  = _cache none_cached_state.
Proof.
  intros self.
  destruct (disabled_leaves_cache_alone example_deepcopy self (VRef 1%positive)
              none_cached_state) as (W & _).
  destruct W as (W & _); [reflexivity|exact W].
Defined.

Lemma cache_grows_monotonically_witness :
  let self := example_preprocessor true [] combine_text in
  let out := __call__ example_deepcopy self (VRef 1%positive) other_cached_state in
  _cache out.2 !! "Z"%string = Some (VInt 1).
Proof.
  intros self out.
  destruct (cache_grows_monotonically example_deepcopy self (VRef 1%positive)
              other_cached_state) as (W & _).
  apply W. vm_compute. reflexivity.
Defined.

Lemma repr_shows_class_name_and_pre_steps_witness :
  __repr__ (example_preprocessor true [combine_mapper] keep)
  = "preprocessor combine_text_preprocessor, Pre: [Mapper combine, Pre: []]"%string.
Proof.
  destruct (repr_shows_class_name_and_pre_steps
              (example_preprocessor true [combine_mapper] keep))
    as (_ & _ & _ & _ & _ & _ & _ & W & _).
  rewrite (W combine_mapper) by reflexivity. reflexivity.
Defined.

Lemma marker_classes_add_no_behavior_witness :
  call_method (Preprocessor example_Mapper) "__call__" [VNone; VInt 7] ∅
  = (Return (VInt 7), ∅).
Proof.
  destruct (marker_classes_add_no_behavior example_Mapper example_Mapper "__call__")
    as (_ & _ & W & _).
  - compute_done.
  - rewrite W. reflexivity.
Defined.


Lemma none_from_pre_step_is_passed_on_witness :
  let self := example_preprocessor false [drop_mapper] keep in
  let out := __call__ example_deepcopy self (VRef 1%positive) (initial_state article_heap) in
  CallGen VNone ∈ st_log out.2 ∧ out.1 = Return VNone.
Proof.
  intros self out.
  pose (x := VRef 1%positive). pose (c := VRef 2%positive).
  pose (h1 := (example_deepcopy x article_heap).2).
  apply (none_from_pre_step_is_passed_on example_deepcopy self x
           (initial_state article_heap) article_heap c h1 [] drop_mapper [] c h1 [] h1).
  - left. split; reflexivity.
  - vm_compute. reflexivity.
  - reflexivity.
  - reflexivity.
  - reflexivity.
Defined.

Lemma raising_pre_step_ends_the_call_witness :
  let self := example_preprocessor true [failing_mapper; combine_mapper] keep in
  let out := __call__ example_deepcopy self (VRef 1%positive) (initial_state article_heap) in
  st_log out.2 =
    [CallKey (VRef 1%positive); CallDeepcopy (VRef 1%positive); CallPre 0 (VRef 2%positive)].
Proof.
  intros self out.
  pose (x := VRef 1%positive). pose (c := VRef 2%positive).
  pose (h1 := (example_deepcopy x article_heap).2).
  apply (raising_pre_step_ends_the_call example_deepcopy self x
           (initial_state article_heap) article_heap c h1 [] failing_mapper
           [combine_mapper] c h1 [] (Exn "ValueError" "bad input") h1).
  - right. split; [reflexivity|]. exists "A"%string. split; vm_compute; reflexivity.
  - vm_compute. reflexivity.
  - reflexivity.
  - reflexivity.
  - reflexivity.
Defined.

Lemma failed_call_is_not_memoized_witness :
  let self := example_preprocessor true [failing_mapper] combine_text in
  let st1 := (__call__ example_deepcopy self (VRef 1%positive) (initial_state article_heap)).2 in
  _cache st1 !! "A"%string = None.
Proof.
  intros self st1.
  apply (failed_call_is_not_memoized example_deepcopy self (VRef 1%positive)
           (initial_state article_heap) "A"%string article_heap (st_heap st1)
           (Exn "ValueError" "bad input")).
  - reflexivity.
  - vm_compute. reflexivity.
  - vm_compute. reflexivity.
  - vm_compute. reflexivity.
  - vm_compute. reflexivity.
Defined.

Lemma memoized_call_stores_result_under_key_witness :
  let self := example_preprocessor true [] combine_text in
  _cache (__call__ example_deepcopy self (VRef 1%positive) other_cached_state).2
  = <["A"%string := VRef 2%positive]> (_cache other_cached_state).
Proof.
  intros self.
  destruct (memoized_call_stores_result_under_key example_deepcopy self
              (VRef 1%positive) other_cached_state "A"%string article_heap) as [W _].
  - reflexivity.
  - vm_compute. reflexivity.
  - apply W. vm_compute. reflexivity.
Defined.

Lemma memoization_is_transparent_witness :
  (call_all example_deepcopy arithmetic_preprocessor [VInt 1; VInt 1; VInt 2]
     (State ∅ ∅ [])).1
  = [Return (VInt 4); Return (VInt 4); Return (VInt 6)].
Proof.
  destruct (memoization_is_transparent example_deepcopy arithmetic_preprocessor
              id [succ_val] double_val int_of [VInt 1; VInt 1; VInt 2]
              (State ∅ ∅ [])) as [W _].
  - intros x h Hx.
    repeat (apply elem_of_cons in Hx as [->|Hx]; [reflexivity|]).
    by apply elem_of_nil in Hx.
  - reflexivity.
  - reflexivity.
  - reflexivity.
  - intros x1 x2 Hk. unfold pure_pipeline, double_val, succ_val, id. simpl.
    by rewrite Hk.
  - intros k v Hl. simpl in Hl. by rewrite lookup_empty in Hl.
  - exact W.
Defined.

Lemma second_pass_is_all_hits_witness :
  let xs := [VRef 1%positive; VRef 1%positive] in
  let first := call_all example_deepcopy identity_keyed_preprocessor xs
                 (State article_heap ∅ []) in
  call_all example_deepcopy identity_keyed_preprocessor xs first.2
  = (first.1,
     State (st_heap first.2) (_cache first.2) (st_log first.2 ++ (CallKey <$> xs))).
Proof.
  intros xs first.
  apply (second_pass_is_all_hits example_deepcopy identity_keyed_preprocessor loc_of
           xs (State article_heap ∅ [])).
  - reflexivity.
  - reflexivity.
  - vm_compute. repeat constructor.
Defined.

Lemma repr_shows_each_pre_step_witness :
  substring_of "Mapper combine, Pre: []"
    (__repr__ (example_preprocessor true [exclaim_mapper; combine_mapper] keep)).
Proof.
  apply (repr_shows_each_pre_step
           (example_preprocessor true [exclaim_mapper; combine_mapper] keep)
           combine_mapper).
  simpl. apply elem_of_cons. right. apply elem_of_cons. by left.
Defined.

